(** * Arsenal teamserver: the 'Auth' and 'Action' API functions

    A shallow embedding of [teamserver/api/auth.py] and
    [teamserver/api/action.py].  Every API function takes the request's
    parameter dictionary and runs against the persistent store; here it is a
    computation in a state-and-exception monad over the store.

    Each function is wrapped by the [handle_exceptions] decorator, which
    turns a raised exception into the failure envelope of the reply.  The
    embedding stops one step earlier and keeps the exception itself, so that
    the kind of a failure can be told. *)

From Stdlib Require Import ZArith NArith Ascii String List.
From stdpp Require Import base option list strings gmap.

Local Open Scope string_scope.
Local Open Scope Z_scope.

Set Default Proof Using "Type".

(** ** Python values and dictionaries *)

(** The JSON-like values that travel in a [params] dictionary. *)
#[local] Set Warnings "-register-all".
Inductive value : Type :=
| VNone
| VBool (b : bool)
| VInt (n : Z)
| VStr (s : string)
| VList (l : list value).

(** Python truthiness, as used by [if x:]. *)
Definition truthy (v : value) : bool :=
  match v with
  | VNone => false
  | VBool b => b
  | VInt n => negb (n =? 0)
  | VStr EmptyString => false
  | VStr _ => true
  | VList [] => false
  | VList _ => true
  end.

(** Exceptions.  The first group are Python built-ins, the second group is
    imported from [..exceptions] by the two modules, the third group are the
    failures of the collaborators (persistent store, credential primitive,
    action-string parser) under the names of the error taxonomy. *)
Inductive exception : Type :=
| KeyError (key : string)
| TypeError
| ValueError
| PermissionDenied (message : string)
| CannotBindAction (target_name : value)
| NotFound
| DuplicateKey
| ValidationError
| AuthenticationFailed
| MalformedAction
| InvalidStateTransition
| NoActiveSession.

Inductive result (A : Type) : Type :=
| Ok (a : A)
| Err (e : exception).
Arguments Ok {A} a.
Arguments Err {A} e.

(** A request's parameter bag: a [dict] with string keys. *)
Abbreviation Params := (gmap string value).

(** [params[k]] *)
Definition getitem (params : Params) (k : string) : result value :=
  match params !! k with
  | Some v => Ok v
  | None => Err (KeyError k)
  end.

(** [params.get(k)] for a string key: [None] when the key is absent. *)
Definition dict_get (params : Params) (k : string) : value :=
  default VNone (params !! k).

(** [params.get(k, d)] *)
Definition dict_get_default (params : Params) (k : string) (d : value) : value :=
  default d (params !! k).

(** [params.get(key)] for an arbitrary key object.  The key is hashed first:
    a list is unhashable and the lookup raises [TypeError]; a hashable key
    that is not a string equals none of the (string) keys. *)
Definition dict_get_obj (params : Params) (key : value) : result value :=
  match key with
  | VList _ => Err TypeError
  | VStr k => Ok (dict_get params k)
  | _ => Ok VNone
  end.

(** [x in l] for a list of strings [l]: equality with some element. *)
Definition value_in (x : value) (l : list string) : bool :=
  match x with
  | VStr s => bool_decide (s ∈ l)
  | _ => false
  end.

(** [iter(v)]: lists yield their elements, strings their characters, any
    other value is not iterable. *)
Fixpoint chars (s : string) : list ascii :=
  match s with
  | EmptyString => []
  | String c s' => c :: chars s'
  end.

Definition iter (v : value) : result (list value) :=
  match v with
  | VList l => Ok l
  | VStr s => Ok ((λ c, VStr (String c EmptyString)) <$> chars s)
  | _ => Err TypeError
  end.

(** Typed document fields: the model layer accepts a string field only from
    a [str], an optional string field from a [str] or [None], and a list of
    strings only from a list of [str]. *)
Definition as_str (v : value) : result string :=
  match v with
  | VStr s => Ok s
  | _ => Err ValidationError
  end.

Definition as_opt_str (v : value) : result (option string) :=
  match v with
  | VNone => Ok None
  | VStr s => Ok (Some s)
  | _ => Err ValidationError
  end.

Fixpoint as_strs (l : list value) : result (list string) :=
  match l with
  | [] => Ok []
  | VStr s :: l' =>
      match as_strs l' with
      | Ok ss => Ok (s :: ss)
      | Err e => Err e
      end
  | _ :: _ => Err ValidationError
  end.

Definition as_str_list (v : value) : result (list string) :=
  match v with
  | VList l => as_strs l
  | _ => Err ValidationError
  end.

(** ** UUIDs *)

(** [uuid.uuid4()] builds a UUID from 16 random bytes and forces the variant
    and version bits; [entropy] is the integer value of the random bytes. *)
Definition uuid4 (entropy : N) : N :=
  let int := N.modulo entropy (2 ^ 128) in
  let int := N.ldiff int (N.shiftl 0xc000 48) in
  let int := N.lor int (N.shiftl 0x8000 48) in
  let int := N.ldiff int (N.shiftl 0xf000 64) in
  N.lor int (N.shiftl 4 76).

Definition hex_digit (d : N) : ascii :=
  match d with
  | 0 => "0" | 1 => "1" | 2 => "2" | 3 => "3" | 4 => "4"
  | 5 => "5" | 6 => "6" | 7 => "7" | 8 => "8" | 9 => "9"
  | 10 => "a" | 11 => "b" | 12 => "c" | 13 => "d" | 14 => "e"
  | _ => "f"
  end%N%char.

(** ['%0kx' % n], for [n] below [16 ^ k]. *)
Fixpoint hex_pad (k : nat) (n : N) (acc : string) : string :=
  match k with
  | O => acc
  | S k' => hex_pad k' (N.div n 16) (String (hex_digit (N.modulo n 16)) acc)
  end.

(** [str(u)] for a UUID with integer value [u]. *)
Definition uuid_str (u : N) : string :=
  let hex := hex_pad 32 u "" in
  substring 0 8 hex ++ "-" ++ substring 8 4 hex ++ "-" ++ substring 12 4 hex
    ++ "-" ++ substring 16 4 hex ++ "-" ++ substring 20 12 hex.

(** The characters that [str(u)] is made of. *)
Definition uuid_alphabet : list ascii := chars "0123456789abcdef-".

(** The characters of base64 text, padding included. *)
Definition base64_alphabet : list ascii :=
  chars "ABCDEFGHIJKLMNOPQRSTUVWXYZabcdefghijklmnopqrstuvwxyz0123456789+/=".

(** The secret of a new API key:
    ['{}{}{}{}{}'.format(str(uuid4()), ..., str(uuid4()))], the five
    [uuid4()] calls drawing [e1 .. e5] from the random source. *)
Definition format_key (e1 e2 e3 e4 e5 : N) : string :=
  uuid_str (uuid4 e1) ++ uuid_str (uuid4 e2) ++ uuid_str (uuid4 e3)
    ++ uuid_str (uuid4 e4) ++ uuid_str (uuid4 e5).

(** ** Documents of the persistent store *)

Module User.
Record t : Type := mk {
  username : string;
  password : string;
  administrator : bool
}.
End User.

Module APIKey.
Record t : Type := mk {
  key : string;
  owner : string;
  allowed_api_calls : list string
}.
End APIKey.

Module Role.
Record t : Type := mk {
  name : string;
  allowed_api_calls : list string;
  users : list string
}.
End Role.

Module Session.
(** Modelled from the spec: the Session model is not part of the two API
    modules; a session carries an identifier, a status and a polling
    interval. *)
Record t : Type := mk {
  session_id : string;
  status : string;
  interval : Z
}.
End Session.

Module Target.
(** Modelled from the spec: a target aggregates zero or more sessions. *)
Record t : Type := mk {
  name : string;
  sessions : list Session.t
}.
End Target.

Module Action.
Inductive status_t : Type := Queued | Retrieved | Cancelled.

(** The fields set by the constructor call in [create_action], the fields
    merged from the parser's output, and the two lifecycle marks. *)
Record t : Type := mk {
  action_id : string;
  target_name : string;
  action_string : string;
  action_type : value;
  bound_session_id : option string;
  queue_time : Z;
  owner : string;
  fields : gmap string value;
  cancelled : bool;
  retrieved : bool
}.

(** Modelled from the spec: the status of an action is derived from
    whether it has been cancelled or retrieved. *)
Definition status (a : t) : status_t :=
  if cancelled a then Cancelled
  else if retrieved a then Retrieved
  else Queued.

(** Modelled from the spec: [update_fields] merges the auxiliary fields
    of the parser's output onto the record. *)
Definition update_fields (a : t) (parsed : gmap string value) : t :=
  mk (action_id a) (target_name a) (action_string a) (action_type a)
     (bound_session_id a) (queue_time a) (owner a)
     (parsed ∪ fields a) (cancelled a) (retrieved a).

Record document_t : Type := mk_document {
  doc_action_id : string;
  doc_target_name : string;
  doc_action_string : string;
  doc_action_type : value;
  doc_bound_session_id : option string;
  doc_queue_time : Z;
  doc_owner : string;
  doc_status : status_t
}.

(** Modelled from the spec: the document of an action shows its stored
    fields and its derived status. *)
Definition document (a : t) : document_t :=
  mk_document (action_id a) (target_name a) (action_string a)
    (action_type a) (bound_session_id a) (queue_time a) (owner a)
    (status a).
End Action.

(** The persistent store: one collection per document class, each keyed by
    the document's unique key. *)
Record DB : Type := mkDB {
  db_users : gmap string User.t;
  db_api_keys : gmap string APIKey.t;
  db_roles : gmap string Role.t;
  db_actions : gmap string Action.t;
  db_targets : gmap string Target.t
}.

Definition set_users (f : gmap string User.t → gmap string User.t) (db : DB) : DB :=
  mkDB (f (db_users db)) (db_api_keys db) (db_roles db) (db_actions db) (db_targets db).
Definition set_api_keys (f : gmap string APIKey.t → gmap string APIKey.t) (db : DB) : DB :=
  mkDB (db_users db) (f (db_api_keys db)) (db_roles db) (db_actions db) (db_targets db).
Definition set_roles (f : gmap string Role.t → gmap string Role.t) (db : DB) : DB :=
  mkDB (db_users db) (db_api_keys db) (f (db_roles db)) (db_actions db) (db_targets db).
Definition set_actions (f : gmap string Action.t → gmap string Action.t) (db : DB) : DB :=
  mkDB (db_users db) (db_api_keys db) (db_roles db) (f (db_actions db)) (db_targets db).

(** ** The monad of API functions: store passing with exceptions *)

Definition M (A : Type) : Type := DB → result A * DB.

#[global] Instance M_ret : MRet M := λ A a db, (Ok a, db).
#[global] Instance M_bind : MBind M := λ A B f m db,
  match m db with
  | (Ok a, db') => f a db'
  | (Err e, db') => (Err e, db')
  end.

Definition raise {A : Type} (e : exception) : M A := λ db, (Err e, db).
Definition lift {A : Type} (r : result A) : M A := λ db, (r, db).
Definition read {A : Type} (f : DB → A) : M A := λ db, (Ok (f db), db).
Definition write (f : DB → DB) : M unit := λ db, (Ok tt, f db).

(** What an API function hands back: the keyword arguments of
    [success_response], or (for [create_action] with [commit=False]) the
    unsaved action object. *)
Inductive reply : Type :=
| success_response
| success_action_id (action_id : string)
| success_api_key (api_key : string)
| success_action (action : Action.document_t)
| unsaved_action (action : Action.t).

(** Modelled from the spec: the persistent store offers unique-key insert
    (insert-if-absent, [save(force_insert=True)]), update ([save()]),
    get-by-key and delete. *)
Definition save_force_insert {A : Type} (coll : DB → gmap string A)
    (upd : (gmap string A → gmap string A) → DB → DB) (k : string) (a : A) : M unit :=
  λ db, match coll db !! k with
        | Some _ => (Err DuplicateKey, db)
        | None => (Ok tt, upd (insert k a) db)
        end.

Definition save {A : Type}
    (upd : (gmap string A → gmap string A) → DB → DB) (k : string) (a : A) : M unit :=
  write (upd (insert k a)).

Definition remove {A : Type}
    (upd : (gmap string A → gmap string A) → DB → DB) (k : string) : M unit :=
  write (upd (delete k)).

Definition get_by_key {A : Type} (coll : DB → gmap string A) (k : value) : M A :=
  λ db, match k with
        | VStr k => match coll db !! k with
                    | Some a => (Ok a, db)
                    | None => (Err NotFound, db)
                    end
        | _ => (Err NotFound, db)
        end.

(** [min(xs, key=key)]: the first element whose key is least; [ValueError]
    on an empty sequence. *)
Fixpoint min_from {A : Type} (key : A → Z) (best : A) (xs : list A) : A :=
  match xs with
  | [] => best
  | x :: xs' => min_from key (if key x <? key best then x else best) xs'
  end.

Definition py_min {A : Type} (key : A → Z) (xs : list A) : result A :=
  match xs with
  | [] => Err ValueError
  | x :: xs' => Ok (min_from key x xs')
  end.

(** [mapM]-style list comprehension in the monad. *)
Fixpoint for_each {A B : Type} (f : A → M B) (l : list A) : M (list B) :=
  match l with
  | [] => mret []
  | x :: l' => y ← f x; ys ← for_each f l'; mret (y :: ys)
  end.

(** ** Sample data

    Toy instances of the collaborators and a small store, for running the
    API functions on concrete requests. *)

Module Sample.

Definition hash_password (p : string) : string := "argon2$" ++ p.
Definition verify_password (p h : string) : bool := String.eqb (hash_password p) h.
Definition argon2_hash (password salt : string) (t m p : N) : list Byte.byte :=
  list_byte_of_string (salt ++ password).
Definition b64encode (b : list Byte.byte) : string := string_of_list_byte b.
Definition parse_action_string (s : string) : result (gmap string value) :=
  match s with
  | EmptyString => Err MalformedAction
  | _ => Ok {[ "action_type" := VInt 0; "command" := VStr s ]}
  end.

(** A resolver that answers every request with the same context. *)
Definition resolved (user : User.t) (allowed_methods : list string) (administrator : bool)
    : Params → DB → result (User.t * list string * bool) :=
  λ _ _, Ok (user, allowed_methods, administrator).

(** A resolver for requests that carry no auth object. *)
Definition unauthenticated : Params → DB → result (User.t * list string * bool) :=
  λ _ _, Err (KeyError "arsenal_auth_object").

Definition root : User.t := User.mk "root" (hash_password "toor") true.
Definition alice : User.t := User.mk "alice" (hash_password "wonderland") false.
Definition bob : User.t := User.mk "bob" (hash_password "builder") false.

Definition fast : Session.t := Session.mk "session-fast" "active" 2.
Definition slow : Session.t := Session.mk "session-slow" "active" 5.
Definition gone : Session.t := Session.mk "session-gone" "inactive" 8.

(** [web01] has two active sessions and an inactive one, [db01] only an
    inactive one. *)
Definition web01 : Target.t := Target.mk "web01" [slow; fast; gone].
Definition db01 : Target.t := Target.mk "db01" [gone].

Definition alice_secret : string := "alice-secret".
Definition alice_key_digest : string :=
  "salt" ++ "$" ++ b64encode (argon2_hash alice_secret "salt" 1 1 1).
Definition alice_key : APIKey.t := APIKey.mk alice_key_digest "alice" ["get_action"].

Definition db : DB :=
  mkDB {[ "root" := root; "alice" := alice; "bob" := bob ]}
       {[ alice_key_digest := alice_key ]}
       ∅ ∅
       {[ "web01" := web01; "db01" := db01 ]}.

Definition SESSION_STATUSES : gmap string string :=
  {[ "active" := "active"; "missing" := "missing"; "inactive" := "inactive" ]}.

(** Requests. *)
Definition signup : Params :=
  {[ "username" := VStr "carol"; "password" := VStr "s3cret" ]}.
Definition key_request : Params :=
  {[ "allowed_api_calls" := VList [VStr "get_action"] ]}.
Definition role_request : Params :=
  {[ "name" := VStr "operators";
     "allowed_api_calls" := VList [VStr "get_action"; VStr "list_actions"];
     "users" := VList [VStr "alice"] ]}.
Definition reset_request : Params :=
  {[ "new_password" := VStr "n3w" ]}.
Definition change_request : Params :=
  {[ "current_password" := VStr "guess"; "new_password" := VStr "n3w" ]}.
Definition revoke_request : Params :=
  {[ "api_key" := VStr alice_secret ]}.
Definition quick_web01 : Params :=
  {[ "target_name" := VStr "web01"; "action_string" := VStr "exec ls";
     "quick" := VBool true; "bound_session_id" := VStr "session-slow" ]}.
Definition quick_db01 : Params :=
  {[ "target_name" := VStr "db01"; "action_string" := VStr "exec ls";
     "quick" := VBool true ]}.
Definition lost_request : Params :=
  {[ "target_name" := VStr "nowhere"; "action_string" := VStr "exec ls" ]}.
Definition recon_request : Params :=
  {[ "target_name" := VStr "web01"; "action_string" := VStr "exec ls";
     "action_id" := VStr "recon-1" ]}.

End Sample.

(** More sample data: a store with a cancelled action and a role, a target
    whose two active sessions poll at the same interval, and requests. *)
Module Scenario.

Definition cancelled_recon : Action.t :=
  Action.mk "recon-1" "web01" "exec ls" (VInt 0) (Some "session-slow")
    1600000000 "alice" {[ "action_type" := VInt 0; "command" := VStr "exec ls" ]}
    true false.

Definition operators : Role.t :=
  Role.mk "operators" ["get_action"] ["alice"; "bob"].

Definition first_twin : Session.t := Session.mk "twin-1" "active" 3.
Definition second_twin : Session.t := Session.mk "twin-2" "active" 3.
Definition lab : Target.t :=
  Target.mk "lab" [Sample.gone; first_twin; second_twin].

Definition db : DB :=
  mkDB (db_users Sample.db) (db_api_keys Sample.db)
       {[ "operators" := operators ]}
       {[ "recon-1" := cancelled_recon ]}
       (<["lab" := lab]> (db_targets Sample.db)).

Definition new_secret : string := format_key 11 12 13 14 15.
Definition new_digest : string :=
  "salt" ++ "$" ++ Sample.b64encode (Sample.argon2_hash new_secret "salt" 1 1 1).
Definition new_key : APIKey.t := APIKey.mk new_digest "alice" ["get_action"].
Definition db_with_new_key : DB := set_api_keys (insert new_digest new_key) Sample.db.

Definition revoke_new_key : Params := {[ "api_key" := VStr new_secret ]}.
Definition own_change : Params :=
  {[ "current_password" := VStr "wonderland"; "new_password" := VStr "n3w" ]}.
Definition quick_lab : Params :=
  {[ "target_name" := VStr "lab"; "action_string" := VStr "exec id";
     "quick" := VBool true ]}.
Definition bound_elsewhere : Params :=
  {[ "target_name" := VStr "web01"; "action_string" := VStr "exec id";
     "bound_session_id" := VStr "no-such-session" ]}.
Definition duplicate_request : Params :=
  {[ "action_id" := VStr "recon-1"; "arsenal_auth_object" := VStr "alice-token" ]}.
Definition duplicate_request_with_options : Params :=
  {[ "action_id" := VStr "recon-1"; "arsenal_auth_object" := VStr "alice-token";
     "quick" := VBool true; "user_context" := VStr "bob";
     "target_name" := VStr "db01" ]}.
Definition permissions_request : Params :=
  {[ "role_name" := VStr "operators";
     "allowed_api_calls" := VList [VStr "get_action"; VStr "cancel_action"] ]}.

End Scenario.

(** Sample primitives that behave like the real ones in what matters for a
    stored key: a digest that is a lossy checksum of salt and password, and
    the standard base64 encoding; a resolver that refuses impersonation to
    a caller who is no administrator. *)
Module Edge.

Fixpoint checksum (s : string) (acc : N) : N :=
  match s with
  | EmptyString => acc
  | String c s' => checksum s' (N.modulo (acc * 31 + N_of_ascii c) (2 ^ 64))
  end.

Fixpoint bytes_of (k : nat) (n : N) : list Byte.byte :=
  match k with
  | O => []
  | S k' => byte_of_ascii (ascii_of_N (N.modulo n 256)) :: bytes_of k' (N.div n 256)
  end.

Definition argon2_hash (password salt : string) (t m p : N) : list Byte.byte :=
  bytes_of 8 (checksum (salt ++ password) (t + m + p)).

Definition b64_digit (n : N) : ascii :=
  nth (N.to_nat (N.modulo n 64)) base64_alphabet "A"%char.

Definition byte_value (b : Byte.byte) : N := Byte.to_N b.

Fixpoint b64encode (bs : list Byte.byte) : string :=
  match bs with
  | [] => EmptyString
  | [x] =>
      let n := (byte_value x * 16)%N in
      String (b64_digit (N.div n 64)) (String (b64_digit n) "==")
  | [x; y] =>
      let n := ((byte_value x * 256 + byte_value y) * 4)%N in
      String (b64_digit (N.div n 4096))
        (String (b64_digit (N.div n 64)) (String (b64_digit n) "="))
  | x :: y :: z :: rest =>
      let n := (byte_value x * 65536 + byte_value y * 256 + byte_value z)%N in
      String (b64_digit (N.div n 262144))
        (String (b64_digit (N.div n 4096))
           (String (b64_digit (N.div n 64))
              (String (b64_digit n) (b64encode rest))))
  end.

Definition non_administrator : Params → DB → result (User.t * list string * bool) :=
  λ params _,
    match params !! "user_context" with
    | Some _ => Err (PermissionDenied "user_context requires administrator")
    | None => Ok (Sample.alice, ["create_action"], false)
    end.

Definition only_target : Params := {[ "target_name" := VStr "nowhere" ]}.
Definition lost_as_root : Params :=
  {[ "target_name" := VStr "nowhere"; "action_string" := VStr "exec ls";
     "user_context" := VStr "root" ]}.

End Edge.

(** ** The API functions *)

Section Api.

(** The collaborators of the two modules that live elsewhere in the
    teamserver: the auth-context resolver [utils.get_context] (read-only:
    identity, effective permission set, administrator flag), the password
    primitive of the User model, the argon2 and base64 primitives, the
    constants of [config], and the action-string parser. *)
Variable get_context : Params → DB → result (User.t * list string * bool).
Variable hash_password : string → string.
Variable verify_password : string → string → bool.
Variable argon2_hash : string → string → N → N → N → list Byte.byte.
Variable b64encode : list Byte.byte → string.
Variable API_KEY_SALT : string.
Variable HASH_TIME_PARAM HASH_MEMORY_PARAM HASH_PARALLELIZATION_PARAM : N.
Variable SESSION_STATUSES : gmap string string.
Variable parse_action_string : string → result (gmap string value).

Definition context (params : Params) : M (User.t * list string * bool) :=
  λ db, (get_context params db, db).

(** [User.hash_password(password)] on a request value. *)
Definition User_hash_password (password : value) : result string :=
  match password with
  | VStr p => Ok (hash_password p)
  | _ => Err TypeError
  end.

(** [User(username=..., password=..., administrator=...)] *)
Definition User_new (username : value) (password : string) (administrator : bool)
    : result User.t :=
  match as_str username with
  | Ok u => Ok (User.mk u password administrator)
  | Err e => Err e
  end.

Definition User_get_user (username : value) : M User.t :=
  get_by_key db_users username.

(** Modelled from the spec: [User.update_password] is the two-step password
    change: verify the old password, then set the new one. *)
Definition User_update_password (user : User.t) (current_password new_password : value)
    : M unit :=
  match current_password with
  | VStr current =>
      if verify_password current (User.password user) then
        h ← lift (User_hash_password new_password);
        save set_users (User.username user)
          (User.mk (User.username user) h (User.administrator user))
      else raise AuthenticationFailed
  | _ => raise TypeError
  end.

(** [APIKey(key=..., owner=..., allowed_api_calls=...)] *)
Definition APIKey_new (key owner : string) (allowed_api_calls : value)
    : result APIKey.t :=
  match as_str_list allowed_api_calls with
  | Ok calls => Ok (APIKey.mk key owner calls)
  | Err e => Err e
  end.

(** The persisted form of an API key secret:
    [API_KEY_SALT + "$" + b64encode(argon2_hash(...)).decode()]. *)
Definition api_key_digest (original_key : string) : string :=
  let mid_hash :=
    b64encode (argon2_hash original_key API_KEY_SALT
                 HASH_TIME_PARAM HASH_MEMORY_PARAM HASH_PARALLELIZATION_PARAM) in
  API_KEY_SALT ++ "$" ++ mid_hash.

(** Modelled from the spec: [APIKey.get_key] finds the key record of a
    presented secret; only the hash of the secret is compared against. *)
Definition APIKey_get_key (api_key : value) : M APIKey.t :=
  match api_key with
  | VStr secret => get_by_key db_api_keys (VStr (api_key_digest secret))
  | _ => raise NotFound
  end.

(** [Role(name=..., allowed_api_calls=..., users=...)] *)
Definition Role_new (name allowed_api_calls : value) (users : list string)
    : result Role.t :=
  match as_str name, as_str_list allowed_api_calls with
  | Ok n, Ok calls => Ok (Role.mk n calls users)
  | Err e, _ => Err e
  | _, Err e => Err e
  end.

(** *** auth.py *)

Definition create_user (params : Params) : M reply :=
  password ← lift (getitem params "password");
  password_hash ← lift (User_hash_password password);
  let params := delete "password" params in
  username ← lift (getitem params "username");
  user ← lift (User_new username password_hash false);
  _ ← save_force_insert db_users set_users (User.username user) user;
  mret success_response.

Definition create_api_key (e1 e2 e3 e4 e5 : N) (params : Params) : M reply :=
  '(user, allowed_methods, _) ← context params;
  let owner := User.username user in
  let allowed_api_calls := dict_get params "allowed_api_calls" in
  allowed_api_calls ←
    (if truthy allowed_api_calls then
       methods ← lift (iter allowed_api_calls);
       if existsb (λ method, negb (value_in method allowed_methods)) methods then
         if negb (bool_decide ("*" ∈ allowed_methods)) then
           raise (PermissionDenied
                    "Cannot create API key with more permissions than key owner.")
         else mret allowed_api_calls
       else mret allowed_api_calls
     else mret (VList (VStr <$> allowed_methods)));
  let original_key := format_key e1 e2 e3 e4 e5 in
  key ← lift (APIKey_new (api_key_digest original_key) owner allowed_api_calls);
  _ ← save_force_insert db_api_keys set_api_keys (APIKey.key key) key;
  mret (success_api_key original_key).

Definition create_role (params : Params) : M reply :=
  name ← lift (getitem params "name");
  allowed_api_calls ← lift (getitem params "allowed_api_calls");
  let users := VList [] in
  supplied ← lift (dict_get_obj params users);
  users ←
    (if truthy supplied then
       names ← lift (getitem params "users");
       names ← lift (iter names);
       for_each (λ user, u ← User_get_user user; mret (User.username u)) names
     else mret []);
  role ← lift (Role_new name allowed_api_calls users);
  _ ← save_force_insert db_roles set_roles (Role.name role) role;
  mret success_response.

Definition update_user_password (params : Params) : M reply :=
  '(user, _, administrator) ← context params;
  if administrator && negb (User.administrator user) then
    new_password ← lift (getitem params "new_password");
    h ← lift (User_hash_password new_password);
    _ ← save set_users (User.username user)
          (User.mk (User.username user) h (User.administrator user));
    mret success_response
  else
    current_password ← lift (getitem params "current_password");
    new_password ← lift (getitem params "new_password");
    _ ← User_update_password user current_password new_password;
    mret success_response.

Definition revoke_api_key (params : Params) : M reply :=
  '(user, _, administrator) ← context params;
  api_key ← lift (getitem params "api_key");
  api_key ← APIKey_get_key api_key;
  if negb (String.eqb (APIKey.owner api_key) (User.username user))
     && negb administrator then
    raise (PermissionDenied
             "Cannot revoke an API key you do not own.        Please authenticate as the owner of the key to revoke it.")
  else
    _ ← remove set_api_keys (APIKey.key api_key);
    mret success_response.

(** *** action.py *)

(** Modelled from the spec: the target directory answers a lookup by name
    with the target or with nothing. *)
Definition Target_get_by_name (name : value) : M (option Target.t) :=
  read (λ db, match name with
              | VStr n => db_targets db !! n
              | _ => None
              end).

Definition Action_parse_action_string (action_string : value)
    : result (gmap string value) :=
  match action_string with
  | VStr s => parse_action_string s
  | _ => Err TypeError
  end.

Definition Action_get_by_id (action_id : value) : M Action.t :=
  get_by_key db_actions action_id.

(** [Action(action_id=..., ..., owner=...)]: the lifecycle marks start
    unset, no parsed field is merged yet.  The documents of the embedding
    are typed, so a field of the wrong type is refused here, where the
    document is built; the code refuses it in [save()].  Nothing is written
    on either path, and with [commit=True] the outcomes are the same. *)
Definition Action_new (action_id target_name action_string action_type
    bound_session_id : value) (queue_time : Z) (owner : string) : result Action.t :=
  match as_str action_id, as_str target_name, as_str action_string,
        as_opt_str bound_session_id with
  | Ok aid, Ok tn, Ok astr, Ok bsid =>
      Ok (Action.mk aid tn astr action_type bsid queue_time owner ∅ false false)
  | Err e, _, _, _ => Err e
  | _, Err e, _, _ => Err e
  | _, _, Err e, _ => Err e
  | _, _, _, Err e => Err e
  end.

(** [SESSION_STATUSES.get('active', 'active')] *)
Definition active_status : string :=
  default "active" (SESSION_STATUSES !! "active").

(** The [try: ... except KeyError: pass] block of [create_action]: the
    resolved user's name, or [username] unchanged when the resolver raises
    [KeyError]; any other exception propagates.  The resolver either fails
    or returns a user document, and a document is truthy: the test
    [if user:] passes whenever the resolver returns. *)
Definition try_get_username (params : Params) (username : string) : M string :=
  λ db, match get_context params db with
        | Ok (user, _, _) => (Ok (User.username user), db)
        | Err (KeyError _) => (Ok username, db)
        | Err e => (Err e, db)
        end.

(** [entropy] is the draw of the one [uuid4()] call and [now] the reading of
    [time.time()].  The guard on [bound_session] always passes: [min]
    returns one of the target's Session documents, and a document is
    truthy.  The [log] call leaves the store alone. *)
Definition create_action (entropy : N) (now : Z) (params : Params) (commit : bool)
    : M reply :=
  let username := "No owner" in
  username ← try_get_username params username;
  target_name ← lift (getitem params "target_name");
  action_string ← lift (getitem params "action_string");
  let bound_session_id := dict_get params "bound_session_id" in
  target ← Target_get_by_name target_name;
  match target with
  | None => raise (CannotBindAction target_name)
  | Some target =>
      parsed_action ← lift (Action_parse_action_string action_string);
      bound_session_id ←
        (if truthy (dict_get_default params "quick" (VBool false)) then
           bound_session ←
             lift (py_min Session.interval
                     (filter (λ x, Session.status x = active_status)
                             (Target.sessions target)));
           mret (VStr (Session.session_id bound_session))
         else mret bound_session_id);
      action_type ← lift (getitem parsed_action "action_type");
      action ←
        lift (Action_new
                (dict_get_default params "action_id" (VStr (uuid_str (uuid4 entropy))))
                target_name action_string action_type bound_session_id now username);
      let action := Action.update_fields action parsed_action in
      if commit then
        _ ← save_force_insert db_actions set_actions (Action.action_id action) action;
        mret (success_action_id (Action.action_id action))
      else mret (unsaved_action action)
  end.

Definition get_action (params : Params) : M reply :=
  action_id ← lift (getitem params "action_id");
  action ← Action_get_by_id action_id;
  mret (success_action (Action.document action)).

(** [action.bound_session_id] as the value the attribute reads as. *)
Definition opt_str_value (o : option string) : value :=
  match o with
  | Some s => VStr s
  | None => VNone
  end.

(** The dictionary literal of [duplicate_action] is evaluated after the
    action is fetched; [create_action] is called with its default
    [commit=True]. *)
Definition duplicate_action (entropy : N) (now : Z) (params : Params) : M reply :=
  action_id ← lift (getitem params "action_id");
  action ← Action_get_by_id action_id;
  auth ← lift (getitem params "arsenal_auth_object");
  let local_params : Params :=
    {[ "arsenal_auth_object" := auth;
       "target_name" := VStr (Action.target_name action);
       "action_string" := VStr (Action.action_string action) ]} in
  let local_params : Params :=
    if truthy (opt_str_value (Action.bound_session_id action)) then
      <["bound_session_id" := opt_str_value (Action.bound_session_id action)]> local_params
    else local_params in
  create_action entropy now local_params true.

(** *** auth.py, role permissions *)

Definition Role_get_role (role_name : value) : M Role.t :=
  get_by_key db_roles role_name.

(** The assignment to [role.allowed_api_calls] is checked when the role is
    saved: the field takes a list of strings. *)
Definition update_role_permissions (params : Params) : M reply :=
  role_name ← lift (getitem params "role_name");
  role ← Role_get_role role_name;
  allowed_api_calls ← lift (getitem params "allowed_api_calls");
  calls ← lift (as_str_list allowed_api_calls);
  _ ← save set_roles (Role.name role)
        (Role.mk (Role.name role) calls (Role.users role));
  mret success_response.

(** *** Stores reached through the API *)

(** Every document is filed under its own key. *)
Definition well_filed (db : DB) : Prop :=
  map_Forall (λ k u, User.username u = k) (db_users db) ∧
  map_Forall (λ k a, APIKey.key a = k) (db_api_keys db) ∧
  map_Forall (λ k r, Role.name r = k) (db_roles db) ∧
  map_Forall (λ k a, Action.action_id a = k) (db_actions db).

(** The resolver hands out user documents as they are stored. *)
Definition resolves_stored_user (params : Params) (db : DB) : Prop :=
  ∀ user calls administrator,
    get_context params db = Ok (user, calls, administrator) →
    db_users db !! User.username user = Some user.

(** One call of one of the API functions above, with whatever outcome. *)
Inductive api_call : DB → DB → Prop :=
| call_create_user params r db db' :
    create_user params db = (r, db') → api_call db db'
| call_create_api_key e1 e2 e3 e4 e5 params r db db' :
    create_api_key e1 e2 e3 e4 e5 params db = (r, db') → api_call db db'
| call_create_role params r db db' :
    create_role params db = (r, db') → api_call db db'
| call_update_user_password params r db db' :
    resolves_stored_user params db →
    update_user_password params db = (r, db') → api_call db db'
| call_update_role_permissions params r db db' :
    update_role_permissions params db = (r, db') → api_call db db'
| call_revoke_api_key params r db db' :
    revoke_api_key params db = (r, db') → api_call db db'
| call_create_action entropy now params commit r db db' :
    create_action entropy now params commit db = (r, db') → api_call db db'
| call_get_action params r db db' :
    get_action params db = (r, db') → api_call db db'
| call_duplicate_action entropy now params r db db' :
    duplicate_action entropy now params db = (r, db') → api_call db db'.

(** One call of one of the API functions, whatever the resolver does. *)
Inductive any_api_call : DB → DB → Prop :=
| any_create_user params r db db' :
    create_user params db = (r, db') → any_api_call db db'
| any_create_api_key e1 e2 e3 e4 e5 params r db db' :
    create_api_key e1 e2 e3 e4 e5 params db = (r, db') → any_api_call db db'
| any_create_role params r db db' :
    create_role params db = (r, db') → any_api_call db db'
| any_update_user_password params r db db' :
    update_user_password params db = (r, db') → any_api_call db db'
| any_update_role_permissions params r db db' :
    update_role_permissions params db = (r, db') → any_api_call db db'
| any_revoke_api_key params r db db' :
    revoke_api_key params db = (r, db') → any_api_call db db'
| any_create_action entropy now params commit r db db' :
    create_action entropy now params commit db = (r, db') → any_api_call db db'
| any_get_action params r db db' :
    get_action params db = (r, db') → any_api_call db db'
| any_duplicate_action entropy now params r db db' :
    duplicate_action entropy now params db = (r, db') → any_api_call db db'.

(** ** Properties *)

(** *** Reading the parameter dictionary *)

Ltac unfold_m :=
  unfold context, raise, lift, read, write, save, remove, save_force_insert,
         get_by_key, mbind, mret, M_bind, M_ret.

Lemma getitem_Ok (params : Params) k v :
  getitem params k = Ok v ↔ params !! k = Some v.
Proof. unfold getitem. destruct (params !! k); split; congruence. Qed.

Lemma getitem_Some (params : Params) k v :
  params !! k = Some v → getitem params k = Ok v.
Proof. apply getitem_Ok. Qed.

Lemma as_str_Ok v s : as_str v = Ok s ↔ v = VStr s.
Proof. destruct v; simpl; split; congruence. Qed.

Lemma as_strs_VStr (l : list string) : as_strs (VStr <$> l) = Ok l.
Proof.
  induction l as [|s l IH]; [done|].
  change (as_strs (VStr <$> s :: l))
    with (match as_strs (VStr <$> l) with Ok ss => Ok (s :: ss) | Err e => Err e end).
  by rewrite IH.
Qed.

Lemma existsb_not_in_strs (requested allowed : list string) :
  existsb (λ method, negb (value_in method allowed)) (VStr <$> requested) = false
  ↔ ∀ m, m ∈ requested → m ∈ allowed.
Proof.
  induction requested as [|r l IH]; simpl.
  - split; [|done]. intros _ m Hm. by apply elem_of_nil in Hm.
  - rewrite orb_false_iff, negb_false_iff, bool_decide_eq_true.
    setoid_rewrite IH. split.
    + intros [Hr Hl] m Hm. apply elem_of_cons in Hm.
      destruct Hm as [Heq|Hm]; [by rewrite Heq | by apply Hl].
    + intros H. split; [|intros m Hm]; apply H, elem_of_cons; auto.
Qed.

(** *** The characters of a UUID *)

Lemma chars_app (s1 s2 : string) : chars (s1 ++ s2) = (chars s1 ++ chars s2)%list.
Proof. induction s1 as [|c s1 IH]; simpl; [done|]. by rewrite IH. Qed.

Lemma chars_substring (s : string) : ∀ n m c,
  c ∈ chars (substring n m s) → c ∈ chars s.
Proof.
  induction s as [|a s IH]; intros n m c.
  - destruct n, m; simpl; done.
  - destruct n as [|n]; [destruct m as [|m]|]; simpl.
    + intros H. by apply elem_of_nil in H.
    + intros [->|H]%elem_of_cons; [left|right; eauto].
    + intros H. right. eauto.
Qed.

Lemma hex_digit_alphabet (d : N) : hex_digit d ∈ uuid_alphabet.
Proof.
  unfold hex_digit, uuid_alphabet. repeat case_match; simpl; repeat constructor.
Qed.

Lemma hex_pad_alphabet (k : nat) : ∀ n acc,
  Forall (.∈ uuid_alphabet) (chars acc) →
  Forall (.∈ uuid_alphabet) (chars (hex_pad k n acc)).
Proof.
  induction k as [|k IH]; intros n acc Hacc; simpl; [done|].
  apply IH. simpl. constructor; [apply hex_digit_alphabet | done].
Qed.

Lemma uuid_str_alphabet (u : N) : Forall (.∈ uuid_alphabet) (chars (uuid_str u)).
Proof.
  assert (Hhex : ∀ n m, Forall (.∈ uuid_alphabet) (chars (substring n m (hex_pad 32 u "")))).
  { intros n m. apply Forall_forall. intros c Hc%chars_substring.
    revert c Hc. apply Forall_forall, hex_pad_alphabet. constructor. }
  assert (Hdash : Forall (.∈ uuid_alphabet) (chars "-")).
  { repeat constructor. }
  unfold uuid_str. rewrite !chars_app, !Forall_app. auto 20.
Qed.

Lemma format_key_alphabet (e1 e2 e3 e4 e5 : N) :
  Forall (.∈ uuid_alphabet) (chars (format_key e1 e2 e3 e4 e5)).
Proof.
  unfold format_key. rewrite !chars_app, !Forall_app.
  auto 10 using uuid_str_alphabet.
Qed.

(** The stored form of a secret carries the separator ["$"], which no UUID
    character is: the stored form never coincides with a generated secret. *)
Lemma api_key_digest_not_secret (secret : string) (e1 e2 e3 e4 e5 : N) :
  api_key_digest secret ≠ format_key e1 e2 e3 e4 e5.
Proof.
  intros Heq.
  assert (Hin : "$"%char ∈ chars (api_key_digest secret)).
  { unfold api_key_digest. rewrite !chars_app.
    apply elem_of_app. right. apply elem_of_app. left. simpl. left. }
  rewrite Heq in Hin.
  pose proof (format_key_alphabet e1 e2 e3 e4 e5) as Hall.
  rewrite Forall_forall in Hall. specialize (Hall _ Hin).
  unfold uuid_alphabet in Hall. simpl in Hall.
  repeat (apply elem_of_cons in Hall as [Hall|Hall]; [discriminate Hall|]).
  by apply elem_of_nil in Hall.
Qed.

(** *** create_user *)

(** C10.  Whenever [create_user] succeeds, the one record it has written is
    the one for the request's username, its administrator flag is [False]
    and its password field is the hash of the request's plaintext password;
    the reply is the bare success acknowledgement. *)
Theorem create_user_never_administrator (params : Params) db r db' :
  create_user params db = (Ok r, db') →
  ∃ username plaintext,
    params !! "username" = Some (VStr username) ∧
    params !! "password" = Some (VStr plaintext) ∧
    db_users db !! username = None ∧
    r = success_response ∧
    db' = set_users
            (insert username (User.mk username (hash_password plaintext) false)) db.
Proof.
  unfold create_user, User_hash_password, User_new. unfold_m. intros H.
  destruct (getitem params "password") as [pw|] eqn:Hpw; [|done].
  destruct pw as [| | |plaintext|]; try done.
  destruct (getitem (delete "password" params) "username") as [un|] eqn:Hun; [|done].
  destruct un as [| | |username|]; try done. simpl in H.
  destruct (db_users db !! username) eqn:Hfresh; [done|].
  exists username, plaintext. simplify_eq.
  apply getitem_Ok in Hpw, Hun. rewrite lookup_delete_ne in Hun by done.
  done.
Qed.

(** A well-formed request for a fresh username does succeed. *)
Lemma create_user_succeeds (params : Params) db username plaintext :
  params !! "username" = Some (VStr username) →
  params !! "password" = Some (VStr plaintext) →
  db_users db !! username = None →
  create_user params db =
    (Ok success_response,
     set_users (insert username (User.mk username (hash_password plaintext) false)) db).
Proof.
  intros Hun Hpw Hfresh. unfold create_user. unfold_m.
  rewrite (getitem_Some _ _ _ Hpw). simpl.
  rewrite (getitem_Some (delete "password" params) "username" (VStr username))
    by (by rewrite lookup_delete_ne).
  simpl. by rewrite Hfresh.
Qed.

(** *** create_role *)

(** The lookup [params.get(users)] passes the list bound to [users] as the
    key, and a list cannot be hashed: no request gets past it. *)
Lemma create_role_raises (params : Params) db :
  ∃ e, create_role params db = (Err e, db).
Proof.
  unfold create_role. unfold_m.
  destruct (getitem params "name"); [|eauto].
  destruct (getitem params "allowed_api_calls"); [|eauto].
  simpl. eauto.
Qed.

Lemma create_role_TypeError (params : Params) db name calls :
  params !! "name" = Some name →
  params !! "allowed_api_calls" = Some calls →
  create_role params db = (Err TypeError, db).
Proof.
  intros Hn Hc. unfold create_role. unfold_m.
  by rewrite (getitem_Some _ _ _ Hn), (getitem_Some _ _ _ Hc).
Qed.

Lemma create_role_persists_nothing (params : Params) db r db' :
  create_role params db = (r, db') → db' = db ∧ ∀ reply, r ≠ Ok reply.
Proof.
  destruct (create_role_raises params db) as [e ->]. intros [= <- <-]. done.
Qed.

(** *** update_user_password *)

(** C7 (amended).  When the resolved context reports [administrator] and the
    resolved user is not an administrator account itself, the user's
    password becomes the hash of [new_password] and the call succeeds; the
    request's [current_password] is not looked at. *)
Theorem update_user_password_admin_override (params : Params) db user calls new_password :
  get_context params db = Ok (user, calls, true) →
  User.administrator user = false →
  params !! "new_password" = Some (VStr new_password) →
  update_user_password params db =
    (Ok success_response,
     set_users
       (insert (User.username user)
          (User.mk (User.username user) (hash_password new_password) false)) db).
Proof.
  intros Hctx Hadm Hnew. unfold update_user_password. unfold_m.
  rewrite Hctx. simpl. rewrite Hadm. simpl.
  by rewrite (getitem_Some _ _ _ Hnew).
Qed.

(** Whenever the resolved user is an administrator account, and whenever
    the context does not report [administrator], the request takes the
    two-step path through [User.update_password]. *)
Lemma update_user_password_two_step (params : Params) db user calls administrator :
  get_context params db = Ok (user, calls, administrator) →
  administrator = false ∨ User.administrator user = true →
  update_user_password params db =
    (current_password ← lift (getitem params "current_password");
     new_password ← lift (getitem params "new_password");
     _ ← User_update_password user current_password new_password;
     mret success_response) db.
Proof.
  intros Hctx Hcase. unfold update_user_password. unfold_m. rewrite Hctx. simpl.
  destruct Hcase as [-> | ->]; [done|]. by rewrite andb_false_r.
Qed.

Lemma update_user_password_needs_current (params : Params) db user calls administrator :
  get_context params db = Ok (user, calls, administrator) →
  administrator = false ∨ User.administrator user = true →
  params !! "current_password" = None →
  update_user_password params db = (Err (KeyError "current_password"), db).
Proof.
  intros Hctx Hcase Hcur.
  rewrite (update_user_password_two_step _ _ _ _ _ Hctx Hcase).
  unfold_m. unfold getitem. by rewrite Hcur.
Qed.

(** *** revoke_api_key *)

(** C9.  For a stored key (the record found for the presented secret,
    filed under its own [key]): a caller who is neither the key's owner nor
    an administrator is refused with [PermissionDenied] and the store stays
    as it was; for the owner or an administrator the key record is deleted
    and the call succeeds. *)
Theorem revoke_api_key_owner_or_administrator
    (params : Params) db user calls administrator secret api_key :
  get_context params db = Ok (user, calls, administrator) →
  params !! "api_key" = Some (VStr secret) →
  db_api_keys db !! api_key_digest secret = Some api_key →
  APIKey.key api_key = api_key_digest secret →
  (APIKey.owner api_key ≠ User.username user ∧ administrator = false →
     ∃ message, revoke_api_key params db = (Err (PermissionDenied message), db)) ∧
  (APIKey.owner api_key = User.username user ∨ administrator = true →
     revoke_api_key params db =
       (Ok success_response, set_api_keys (delete (api_key_digest secret)) db) ∧
     db_api_keys (set_api_keys (delete (api_key_digest secret)) db)
       !! api_key_digest secret = None).
Proof.
  intros Hctx Hparam Hkey Hfiled.
  unfold revoke_api_key, APIKey_get_key. unfold_m.
  rewrite Hctx. simpl. rewrite (getitem_Some _ _ _ Hparam), Hkey, Hfiled. split.
  - intros [Hne ->]. apply String.eqb_neq in Hne. rewrite Hne. simpl. eauto.
  - intros Hcase. split; [|apply lookup_delete_eq].
    destruct Hcase as [Heq | ->].
    + apply String.eqb_eq in Heq. by rewrite Heq.
    + by rewrite andb_false_r.
Qed.

(** *** create_api_key *)

Lemma dict_get_requested (params : Params) (requested : list string) :
  params !! "allowed_api_calls" = Some (VList (VStr <$> requested)) →
  dict_get params "allowed_api_calls" = VList (VStr <$> requested).
Proof. intros H. unfold dict_get. by rewrite H. Qed.

Lemma truthy_requested (requested : list string) :
  requested ≠ [] → truthy (VList (VStr <$> requested)) = true.
Proof. by destruct requested. Qed.

(** The delegation check, once the context is resolved: what the new key's
    permission list is going to be, or the refusal. *)
Lemma create_api_key_unrestricted e1 e2 e3 e4 e5 (params : Params) db user calls administrator :
  get_context params db = Ok (user, calls, administrator) →
  truthy (dict_get params "allowed_api_calls") = false →
  db_api_keys db !! api_key_digest (format_key e1 e2 e3 e4 e5) = None →
  create_api_key e1 e2 e3 e4 e5 params db =
    (Ok (success_api_key (format_key e1 e2 e3 e4 e5)),
     set_api_keys
       (insert (api_key_digest (format_key e1 e2 e3 e4 e5))
          (APIKey.mk (api_key_digest (format_key e1 e2 e3 e4 e5))
             (User.username user) calls)) db).
Proof.
  intros Hctx Hfalsy Hfresh. unfold create_api_key, APIKey_new, as_str_list. unfold_m.
  rewrite Hctx. simpl. rewrite Hfalsy, as_strs_VStr. simpl. by rewrite Hfresh.
Qed.

Lemma create_api_key_granted e1 e2 e3 e4 e5 (params : Params) db user calls administrator
    (requested : list string) :
  get_context params db = Ok (user, calls, administrator) →
  params !! "allowed_api_calls" = Some (VList (VStr <$> requested)) →
  requested ≠ [] →
  (∀ m, m ∈ requested → m ∈ calls) ∨ "*" ∈ calls →
  db_api_keys db !! api_key_digest (format_key e1 e2 e3 e4 e5) = None →
  create_api_key e1 e2 e3 e4 e5 params db =
    (Ok (success_api_key (format_key e1 e2 e3 e4 e5)),
     set_api_keys
       (insert (api_key_digest (format_key e1 e2 e3 e4 e5))
          (APIKey.mk (api_key_digest (format_key e1 e2 e3 e4 e5))
             (User.username user) requested)) db).
Proof.
  intros Hctx Hparam Hne Hsub Hfresh.
  pose proof (dict_get_requested _ _ Hparam) as Hget.
  pose proof (truthy_requested _ Hne) as Htruthy.
  unfold create_api_key, APIKey_new, as_str_list. unfold_m.
  rewrite Hctx. simpl. rewrite Hget, Htruthy. simpl.
  destruct (existsb _ _) eqn:Hany.
  - destruct Hsub as [Hsub | Hstar].
    + apply existsb_not_in_strs in Hsub. congruence.
    + rewrite (bool_decide_eq_true_2 _ Hstar). simpl.
      rewrite as_strs_VStr. simpl. by rewrite Hfresh.
  - rewrite as_strs_VStr. simpl. by rewrite Hfresh.
Qed.

Lemma create_api_key_refused e1 e2 e3 e4 e5 (params : Params) db user calls administrator
    (requested : list string) :
  get_context params db = Ok (user, calls, administrator) →
  params !! "allowed_api_calls" = Some (VList (VStr <$> requested)) →
  requested ≠ [] →
  ¬ ((∀ m, m ∈ requested → m ∈ calls) ∨ "*" ∈ calls) →
  ∃ message,
    create_api_key e1 e2 e3 e4 e5 params db = (Err (PermissionDenied message), db).
Proof.
  intros Hctx Hparam Hne Hnot.
  pose proof (dict_get_requested _ _ Hparam) as Hget.
  pose proof (truthy_requested _ Hne) as Htruthy.
  unfold create_api_key. unfold_m.
  rewrite Hctx. simpl. rewrite Hget, Htruthy. simpl.
  destruct (existsb _ _) eqn:Hany.
  - rewrite bool_decide_eq_false_2 by (intros Hstar; apply Hnot; by right).
    simpl. eauto.
  - destruct Hnot. left. exact (proj1 (existsb_not_in_strs _ _) Hany).
Qed.

(** C1.  With [allowed_api_calls] omitted or empty the new key carries the
    issuer's whole effective permission list.  With a non-empty request the
    call succeeds, and the key carries the requested list, exactly when
    every requested call is in the issuer's list or the issuer's list holds
    ["*"]; otherwise it fails with [PermissionDenied] and nothing is
    stored. *)
Theorem create_api_key_delegation e1 e2 e3 e4 e5 (params : Params) db user calls administrator :
  get_context params db = Ok (user, calls, administrator) →
  db_api_keys db !! api_key_digest (format_key e1 e2 e3 e4 e5) = None →
  let created (granted : list string) :=
    (Ok (success_api_key (format_key e1 e2 e3 e4 e5)),
     set_api_keys
       (insert (api_key_digest (format_key e1 e2 e3 e4 e5))
          (APIKey.mk (api_key_digest (format_key e1 e2 e3 e4 e5))
             (User.username user) granted)) db) in
  (truthy (dict_get params "allowed_api_calls") = false →
     create_api_key e1 e2 e3 e4 e5 params db = created calls) ∧
  (∀ requested : list string,
     params !! "allowed_api_calls" = Some (VList (VStr <$> requested)) →
     requested ≠ [] →
     ((∀ m, m ∈ requested → m ∈ calls) ∨ "*" ∈ calls →
        create_api_key e1 e2 e3 e4 e5 params db = created requested) ∧
     (¬ ((∀ m, m ∈ requested → m ∈ calls) ∨ "*" ∈ calls) →
        ∃ message,
          create_api_key e1 e2 e3 e4 e5 params db = (Err (PermissionDenied message), db))).
Proof.
  intros Hctx Hfresh created. split; [|intros requested Hparam Hne; split].
  - intros Hfalsy. by eapply create_api_key_unrestricted.
  - intros Hsub. by eapply create_api_key_granted.
  - intros Hnot. by eapply create_api_key_refused.
Qed.

Lemma hyphen_in_uuid_str (u : N) : "-"%char ∈ chars (uuid_str u).
Proof.
  unfold uuid_str. rewrite !chars_app.
  apply elem_of_app. right. apply elem_of_app. left. simpl. left.
Qed.

Lemma hyphen_in_format_key (e1 e2 e3 e4 e5 : N) :
  "-"%char ∈ chars (format_key e1 e2 e3 e4 e5).
Proof.
  unfold format_key. rewrite !chars_app.
  apply elem_of_app. left. apply hyphen_in_uuid_str.
Qed.

Lemma hyphen_not_base64 : "-"%char ∉ base64_alphabet.
Proof.
  unfold base64_alphabet. simpl. intros H.
  repeat (apply elem_of_cons in H as [H|H]; [discriminate H|]).
  by apply elem_of_nil in H.
Qed.

(** A text without a hyphen holds no generated secret, in any position. *)
Lemma no_hyphen_no_secret (text : string) (e1 e2 e3 e4 e5 : N) :
  "-"%char ∉ chars text →
  ∀ before after, text ≠ before ++ format_key e1 e2 e3 e4 e5 ++ after.
Proof.
  intros Hno before after Heq. apply Hno. rewrite Heq, !chars_app.
  apply elem_of_app. right. apply elem_of_app. left. apply hyphen_in_format_key.
Qed.

(** C8.  A successful [create_api_key] replies with the raw secret.  The one
    record it has written is filed under, and holds in its [key] field, the
    text [API_KEY_SALT + "$" + b64encode(argon2_hash(secret, API_KEY_SALT,
    t, m, p))]: the salt, the separator and the encoded argon2 digest of the
    secret.  That field is not the raw secret; and since base64 text has no
    hyphen while every secret has, the encoded digest holds the raw secret
    nowhere, nor does the whole field when the salt has no hyphen. *)
Theorem create_api_key_stores_digest e1 e2 e3 e4 e5 (params : Params) db r db' :
  create_api_key e1 e2 e3 e4 e5 params db = (Ok r, db') →
  let secret := format_key e1 e2 e3 e4 e5 in
  let mid_hash :=
    b64encode (argon2_hash secret API_KEY_SALT
                 HASH_TIME_PARAM HASH_MEMORY_PARAM HASH_PARALLELIZATION_PARAM) in
  r = success_api_key secret ∧
  ∃ api_key,
    db_api_keys db !! (API_KEY_SALT ++ "$" ++ mid_hash) = None ∧
    db' = set_api_keys (insert (API_KEY_SALT ++ "$" ++ mid_hash) api_key) db ∧
    APIKey.key api_key = API_KEY_SALT ++ "$" ++ mid_hash ∧
    APIKey.key api_key ≠ secret ∧
    ((∀ bytes, Forall (.∈ base64_alphabet) (chars (b64encode bytes))) →
     (∀ before after, mid_hash ≠ before ++ secret ++ after) ∧
     ("-"%char ∉ chars API_KEY_SALT →
      ∀ before after, APIKey.key api_key ≠ before ++ secret ++ after)).
Proof.
  intros H secret mid_hash. revert H.
  unfold create_api_key, APIKey_new. unfold_m. intros H.
  destruct (get_context params db) as [[[user calls] administrator]|]; [|done].
  simpl in H.
  destruct (if truthy _ then _ else _) as [[granted|] db1] eqn:Hcheck; [|done].
  assert (db1 = db) as ->.
  { destruct (truthy _); [|by simplify_eq].
    destruct (iter _); [|by simplify_eq].
    repeat (case_match; simplify_eq); done. }
  destruct (as_str_list granted) as [l|]; [|done]. simpl in H.
  destruct (db_api_keys db !! _) eqn:Hfresh; [done|].
  injection H as <- <-. split; [done|].
  eexists. split; [done|]. split; [reflexivity|]. simpl.
  split; [reflexivity|]. split; [apply api_key_digest_not_secret|].
  intros Hb64.
  assert (Hmid : "-"%char ∉ chars mid_hash).
  { intros Hin. apply hyphen_not_base64.
    pose proof (Hb64 (argon2_hash secret API_KEY_SALT HASH_TIME_PARAM
                        HASH_MEMORY_PARAM HASH_PARALLELIZATION_PARAM)) as Hall.
    rewrite Forall_forall in Hall. by apply Hall. }
  split; [by apply no_hyphen_no_secret|].
  intros Hsalt. apply no_hyphen_no_secret.
  unfold api_key_digest. fold secret. fold mid_hash. rewrite !chars_app. simpl.
  intros Hin. apply elem_of_app in Hin as [Hin | Hin]; [done|].
  apply elem_of_cons in Hin as [Hin | Hin]; [discriminate Hin | done].
Qed.

(** *** Selecting the fastest session *)

Lemma min_from_spec {A : Type} (key : A → Z) (xs : list A) : ∀ best,
  min_from key best xs ∈ best :: xs ∧
  ∀ x, x ∈ best :: xs → key (min_from key best xs) ≤ key x.
Proof.
  induction xs as [|y xs IH]; intros best; simpl.
  - split; [left|]. intros x Hx. apply list_elem_of_singleton in Hx. by subst.
  - destruct (IH (if key y <? key best then y else best)) as [Hin Hle]. split.
    + apply elem_of_cons in Hin as [-> | Hin].
      * destruct (key y <? key best); [right; left | left].
      * by do 2 right.
    + intros x Hx.
      assert (Hstep : key (min_from key (if key y <? key best then y else best) xs)
                      ≤ key (if key y <? key best then y else best))
        by (apply Hle; left).
      apply elem_of_cons in Hx as [Hx | Hx];
        [subst x | apply elem_of_cons in Hx as [Hx | Hx]; [subst x|]].
      * destruct (Z.ltb_spec (key y) (key best)); lia.
      * destruct (Z.ltb_spec (key y) (key best)); lia.
      * apply Hle. by right.
Qed.

Lemma py_min_spec {A : Type} (key : A → Z) (xs : list A) (m : A) :
  py_min key xs = Ok m → m ∈ xs ∧ ∀ x, x ∈ xs → key m ≤ key x.
Proof.
  destruct xs as [|x xs]; simpl; [done|]. intros [= <-]. apply min_from_spec.
Qed.

Lemma py_min_nonempty {A : Type} (key : A → Z) (xs : list A) :
  xs ≠ [] → ∃ m, py_min key xs = Ok m.
Proof. destruct xs; [done|]. simpl. eauto. Qed.

(** *** create_action *)

Lemma try_get_username_db (params : Params) default db r db' :
  try_get_username params default db = (r, db') → db' = db.
Proof.
  unfold try_get_username. intros H. repeat case_match; by simplify_eq.
Qed.

(** Every failure of [create_action] leaves the store as it was. *)
Lemma create_action_Err_db entropy now (params : Params) commit db e db' :
  create_action entropy now params commit db = (Err e, db') → db' = db.
Proof.
  unfold create_action, Target_get_by_name. unfold_m. intros H.
  destruct (try_get_username _ _ _) as [[owner|] db1] eqn:Howner;
    apply try_get_username_db in Howner as ->; [|by simplify_eq].
  repeat (case_match; simplify_eq; try done).
Qed.

(** What a successful [create_action] has read and written. *)
Lemma create_action_Ok entropy now (params : Params) commit db r db' :
  create_action entropy now params commit db = (Ok r, db') →
  ∃ tn target astr parsed atype aid bsid owner,
    params !! "target_name" = Some (VStr tn) ∧
    db_targets db !! tn = Some target ∧
    params !! "action_string" = Some (VStr astr) ∧
    parse_action_string astr = Ok parsed ∧
    parsed !! "action_type" = Some atype ∧
    dict_get_default params "action_id" (VStr (uuid_str (uuid4 entropy))) = VStr aid ∧
    try_get_username params "No owner" db = (Ok owner, db) ∧
    (if truthy (dict_get_default params "quick" (VBool false))
     then ∃ s, py_min Session.interval
                 (filter (λ x, Session.status x = active_status) (Target.sessions target))
               = Ok s ∧ bsid = Some (Session.session_id s)
     else as_opt_str (dict_get params "bound_session_id") = Ok bsid) ∧
    let action :=
      Action.update_fields
        (Action.mk aid tn astr atype bsid now owner ∅ false false) parsed in
    if commit
    then db_actions db !! aid = None ∧ r = success_action_id aid ∧
         db' = set_actions (insert aid action) db
    else r = unsaved_action action ∧ db' = db.
Proof.
  unfold create_action, Target_get_by_name, Action_parse_action_string, Action_new.
  unfold_m. intros H.
  destruct (try_get_username _ _ _) as [[owner|] db1] eqn:Howner; [|done].
  pose proof (try_get_username_db _ _ _ _ _ Howner) as ->.
  destruct (getitem params "target_name") as [tnv|] eqn:Htn; [|done].
  destruct (getitem params "action_string") as [av|] eqn:Has; [|done].
  apply getitem_Ok in Htn, Has. simpl in H.
  destruct tnv as [| | |tn|]; try done.
  destruct (db_targets db !! tn) as [target|] eqn:Htarget; [|done].
  destruct av as [| | |astr|]; try done.
  destruct (parse_action_string astr) as [parsed|] eqn:Hparse; [|done].
  destruct (if truthy _ then _ else _) as [[bv|] db1] eqn:Hbind; [|done].
  assert (db1 = db) as ->.
  { destruct (truthy _); [|by simplify_eq]. destruct (py_min _ _); by simplify_eq. }
  destruct (getitem parsed "action_type") as [atype|] eqn:Hty; [|done].
  apply getitem_Ok in Hty. simpl in H.
  destruct (as_str (dict_get_default params "action_id" _)) as [aid|] eqn:Haid; [|done].
  apply as_str_Ok in Haid.
  destruct (as_opt_str bv) as [bsid|] eqn:Hbsid; [|done]. simpl in H.
  exists tn, target, astr, parsed, atype, aid, bsid, owner.
  repeat (split; [done|]). split.
  - destruct (truthy _).
    + destruct (py_min _ _) as [s|]; [|done]. simplify_eq. simpl in Hbsid.
      exists s. split; [done|]. congruence.
    + by simplify_eq.
  - simpl. destruct commit; simpl in H.
    + destruct (db_actions db !! aid) eqn:Hfresh; [done|]. by simplify_eq.
    + by simplify_eq.
Qed.

(** Conversely, a request that meets these conditions is carried out. *)
Lemma create_action_succeeds entropy now (params : Params) commit db
    tn target astr parsed atype aid bsid owner :
  params !! "target_name" = Some (VStr tn) →
  db_targets db !! tn = Some target →
  params !! "action_string" = Some (VStr astr) →
  parse_action_string astr = Ok parsed →
  parsed !! "action_type" = Some atype →
  dict_get_default params "action_id" (VStr (uuid_str (uuid4 entropy))) = VStr aid →
  try_get_username params "No owner" db = (Ok owner, db) →
  (if truthy (dict_get_default params "quick" (VBool false))
   then ∃ s, py_min Session.interval
               (filter (λ x, Session.status x = active_status) (Target.sessions target))
             = Ok s ∧ bsid = Some (Session.session_id s)
   else as_opt_str (dict_get params "bound_session_id") = Ok bsid) →
  (commit = true → db_actions db !! aid = None) →
  let action :=
    Action.update_fields
      (Action.mk aid tn astr atype bsid now owner ∅ false false) parsed in
  create_action entropy now params commit db =
    if commit then (Ok (success_action_id aid), set_actions (insert aid action) db)
    else (Ok (unsaved_action action), db).
Proof.
  intros Htn Htarget Has Hparse Hty Haid Howner Hbind Hfresh action. subst action.
  unfold create_action, Target_get_by_name, Action_parse_action_string, Action_new.
  unfold_m. rewrite Howner, (getitem_Some _ _ _ Htn), (getitem_Some _ _ _ Has).
  simpl. rewrite Htarget, Hparse.
  rewrite (getitem_Some _ _ _ Hty), Haid.
  destruct (truthy (dict_get_default params "quick" (VBool false))).
  - destruct Hbind as (s & -> & ->). simpl.
    destruct commit; simpl; [by rewrite Hfresh | done].
  - simpl. rewrite Hbind. simpl.
    destruct commit; simpl; [by rewrite Hfresh | done].
Qed.

(** C4.  A request whose [target_name] names no stored target never
    succeeds and never changes the store; when it carries an
    [action_string] and resolving the caller does not itself fail, the
    failure is [CannotBindAction]. *)
Theorem create_action_unknown_target entropy now (params : Params) commit db
    (target_name : value) :
  params !! "target_name" = Some target_name →
  (∀ n, target_name = VStr n → db_targets db !! n = None) →
  (∃ e, create_action entropy now params commit db = (Err e, db)) ∧
  (is_Some (params !! "action_string") →
   (∃ owner, try_get_username params "No owner" db = (Ok owner, db)) →
   create_action entropy now params commit db = (Err (CannotBindAction target_name), db)).
Proof.
  intros Htn Habsent.
  assert (Hlookup : match target_name with
                    | VStr n => db_targets db !! n
                    | _ => None
                    end = None).
  { destruct target_name; try done. by apply Habsent. }
  unfold create_action, Target_get_by_name. unfold_m.
  rewrite (getitem_Some _ _ _ Htn). split.
  - destruct (try_get_username _ _ _) as [[owner|e] db1] eqn:Howner;
      apply try_get_username_db in Howner as ->; [|eauto].
    destruct (getitem params "action_string"); [|eauto].
    simpl. rewrite Hlookup. eauto.
  - intros [a Ha] [owner Howner]. rewrite Howner, (getitem_Some _ _ _ Ha).
    simpl. by rewrite Hlookup.
Qed.

(** C2 (amended).  In quick mode, for a stored target none of whose
    sessions is active, the request never succeeds and never changes the
    store; when the request is otherwise in order the failure is the
    [ValueError] of [min] on an empty sequence. *)
Theorem create_action_quick_without_active_session entropy now (params : Params)
    commit db tn target :
  truthy (dict_get_default params "quick" (VBool false)) = true →
  params !! "target_name" = Some (VStr tn) →
  db_targets db !! tn = Some target →
  (∀ s, s ∈ Target.sessions target → Session.status s ≠ active_status) →
  (∃ e, create_action entropy now params commit db = (Err e, db)) ∧
  (∀ astr parsed owner,
     params !! "action_string" = Some (VStr astr) →
     parse_action_string astr = Ok parsed →
     try_get_username params "No owner" db = (Ok owner, db) →
     create_action entropy now params commit db = (Err ValueError, db)).
Proof.
  intros Hquick Htn Htarget Hnone.
  assert (Hfilter : filter (λ x, Session.status x = active_status)
                      (Target.sessions target) = []).
  { destruct (filter _ _) as [|s l] eqn:Hf; [done|].
    assert (Hs : s ∈ filter (λ x, Session.status x = active_status)
                   (Target.sessions target)) by (rewrite Hf; left).
    apply list_elem_of_filter in Hs as [Hactive Hin]. by destruct (Hnone s Hin). }
  split.
  - destruct (create_action entropy now params commit db) as [[r|e] db'] eqn:Hrun.
    + apply create_action_Ok in Hrun
        as (tn' & target' & ? & ? & ? & ? & ? & ? & Htn' & Htarget' & _ & _ & _ & _ & _ & Hbind & _).
      rewrite Hquick in Hbind. destruct Hbind as (s & Hmin & _).
      simplify_eq. by rewrite Hfilter in Hmin.
    + apply create_action_Err_db in Hrun as ->. eauto.
  - intros astr parsed owner Has Hparse Howner.
    unfold create_action, Target_get_by_name, Action_parse_action_string. unfold_m.
    rewrite Howner, (getitem_Some _ _ _ Htn), (getitem_Some _ _ _ Has).
    simpl. rewrite Htarget, Hparse, Hquick, Hfilter. done.
Qed.

(** C3.  In quick mode, for a stored target, the action that
    [create_action] builds is bound to a session of the target that is
    active and whose interval is least among the target's active sessions,
    whatever [bound_session_id] the request carries. *)
Theorem create_action_quick_binds_fastest entropy now (params : Params) commit db r db'
    tn target :
  truthy (dict_get_default params "quick" (VBool false)) = true →
  params !! "target_name" = Some (VStr tn) →
  db_targets db !! tn = Some target →
  create_action entropy now params commit db = (Ok r, db') →
  ∃ s action,
    s ∈ Target.sessions target ∧
    Session.status s = active_status ∧
    (∀ s', s' ∈ Target.sessions target → Session.status s' = active_status →
           Session.interval s ≤ Session.interval s') ∧
    Action.bound_session_id action = Some (Session.session_id s) ∧
    if commit
    then r = success_action_id (Action.action_id action) ∧
         db_actions db !! Action.action_id action = None ∧
         db' = set_actions (insert (Action.action_id action) action) db
    else r = unsaved_action action ∧ db' = db.
Proof.
  intros Hquick Htn Htarget Hrun.
  apply create_action_Ok in Hrun
    as (tn' & target' & astr & parsed & atype & aid & bsid & owner
        & Htn' & Htarget' & _ & _ & _ & _ & _ & Hbind & Hdone).
  simplify_eq. rewrite Hquick in Hbind. destruct Hbind as (s & Hmin & ->).
  apply py_min_spec in Hmin as [Hin Hle].
  apply list_elem_of_filter in Hin as [Hactive Hin].
  exists s, (Action.update_fields
    (Action.mk aid tn astr atype (Some (Session.session_id s)) now owner ∅ false false)
    parsed).
  split; [done|]. split; [done|]. split.
  { intros s' Hin' Hactive'. apply Hle, list_elem_of_filter. done. }
  split; [done|].
  simpl in Hdone. destruct commit; simpl; [|done].
  destruct Hdone as (Hfresh & -> & ->). done.
Qed.

(** C5.  When [create_action] has stored an action, [get_action] on the
    returned [action_id] succeeds with a document that shows the request's
    [target_name] and [action_string] and the status [Queued]. *)
Theorem create_action_then_get_action entropy now (params query : Params) db r db'
    tn astr :
  params !! "target_name" = Some (VStr tn) →
  params !! "action_string" = Some (VStr astr) →
  create_action entropy now params true db = (Ok r, db') →
  ∃ aid doc,
    r = success_action_id aid ∧
    (query !! "action_id" = Some (VStr aid) →
     get_action query db' = (Ok (success_action doc), db')) ∧
    Action.doc_action_id doc = aid ∧
    Action.doc_target_name doc = tn ∧
    Action.doc_action_string doc = astr ∧
    Action.doc_status doc = Action.Queued.
Proof.
  intros Htn Has Hrun.
  apply create_action_Ok in Hrun
    as (tn' & target & astr' & parsed & atype & aid & bsid & owner
        & Htn' & _ & Has' & _ & _ & _ & _ & _ & Hfresh & -> & ->).
  simplify_eq.
  exists aid, (Action.document (Action.update_fields
    (Action.mk aid tn astr atype bsid now owner ∅ false false) parsed)).
  split; [done|]. split; [|done].
  intros Hq. unfold get_action, Action_get_by_id. unfold_m.
  rewrite (getitem_Some _ _ _ Hq). simpl. by rewrite lookup_insert_eq.
Qed.

(** ** Further properties *)

(** *** API keys: what a call can and cannot do to the store *)

Lemma as_strs_Ok (l : list value) : ∀ ss, as_strs l = Ok ss → l = VStr <$> ss.
Proof.
  induction l as [|v l IH]; intros ss; simpl.
  - by intros [= <-].
  - destruct v as [| | |s|]; try done.
    destruct (as_strs l) as [ss'|]; [|done]. intros [= <-].
    by rewrite (IH ss' eq_refl).
Qed.

Lemma as_str_list_Ok (v : value) (ss : list string) :
  as_str_list v = Ok ss → v = VList (VStr <$> ss).
Proof.
  destruct v as [| | | |l]; try done. simpl. intros H. by rewrite (as_strs_Ok _ _ H).
Qed.

Lemma set_api_keys_delete_insert db k (a : APIKey.t) :
  db_api_keys db !! k = None →
  set_api_keys (delete k) (set_api_keys (insert k a) db) = db.
Proof.
  intros Hfresh. destruct db as [us ks rs acts ts]. unfold set_api_keys. simpl in *.
  by rewrite delete_insert_id.
Qed.

(** The delegation check of [create_api_key], read as a function from the
    request to the permission list that the key is going to carry. *)
Lemma create_api_key_Ok e1 e2 e3 e4 e5 (params : Params) db r db' :
  create_api_key e1 e2 e3 e4 e5 params db = (Ok r, db') →
  ∃ user calls administrator granted,
    get_context params db = Ok (user, calls, administrator) ∧
    (if truthy (dict_get params "allowed_api_calls")
     then dict_get params "allowed_api_calls" = VList (VStr <$> granted) ∧
          ((∀ m, m ∈ granted → m ∈ calls) ∨ "*" ∈ calls)
     else granted = calls) ∧
    db_api_keys db !! api_key_digest (format_key e1 e2 e3 e4 e5) = None ∧
    r = success_api_key (format_key e1 e2 e3 e4 e5) ∧
    db' = set_api_keys
            (insert (api_key_digest (format_key e1 e2 e3 e4 e5))
               (APIKey.mk (api_key_digest (format_key e1 e2 e3 e4 e5))
                  (User.username user) granted)) db.
Proof.
  unfold create_api_key, APIKey_new. unfold_m. intros H.
  destruct (get_context params db) as [[[user calls] administrator]|]; [|done].
  simpl in H. exists user, calls, administrator.
  destruct (truthy (dict_get params "allowed_api_calls")) eqn:Htruthy.
  - destruct (iter (dict_get params "allowed_api_calls")) as [methods|] eqn:Hiter;
      [|done].
    simpl in H.
    assert (Hgranted : ∃ granted,
              dict_get params "allowed_api_calls" = VList (VStr <$> granted) ∧
              ((∀ m, m ∈ granted → m ∈ calls) ∨ "*" ∈ calls) ∧
              db_api_keys db !! api_key_digest (format_key e1 e2 e3 e4 e5) = None ∧
              (Ok r, db')
              = (Ok (success_api_key (format_key e1 e2 e3 e4 e5)),
                 set_api_keys
                   (insert (api_key_digest (format_key e1 e2 e3 e4 e5))
                      (APIKey.mk (api_key_digest (format_key e1 e2 e3 e4 e5))
                         (User.username user) granted)) db)).
    { destruct (existsb _ methods) eqn:Hany;
        [destruct (bool_decide ("*" ∈ calls)) eqn:Hstar; simpl in H; [|done]|];
        simpl in H;
        destruct (as_str_list (dict_get params "allowed_api_calls"))
          as [granted|] eqn:Hlist; try done; simpl in H;
        destruct (db_api_keys db !! _) eqn:Hfresh; try done;
        apply as_str_list_Ok in Hlist; exists granted;
        (split; [exact Hlist|]); (split; [|by split]).
      - right. by apply bool_decide_eq_true in Hstar.
      - left. rewrite Hlist in Hiter. injection Hiter as <-.
        by apply existsb_not_in_strs. }
    destruct Hgranted as (granted & Hv & Hsub & Hfresh & Heq).
    exists granted. by simplify_eq.
  - simpl in H. unfold as_str_list in H. rewrite as_strs_VStr in H. simpl in H.
    destruct (db_api_keys db !! _) eqn:Hfresh; [done|].
    exists calls. by simplify_eq.
Qed.

Lemma create_api_key_Err e1 e2 e3 e4 e5 (params : Params) db e db' :
  create_api_key e1 e2 e3 e4 e5 params db = (Err e, db') → db' = db.
Proof.
  unfold create_api_key, APIKey_new. unfold_m. intros H.
  destruct (get_context params db) as [[[user calls] administrator]|];
    [|by simplify_eq].
  simpl in H.
  repeat (case_match; simplify_eq; try done).
Qed.

(** X1.  No key exceeds its issuer: whatever the request holds, a key that
    [create_api_key] stores is owned by the resolved user, and each call it
    allows is one of the issuer's calls unless the issuer holds ["*"]. *)
Theorem create_api_key_never_exceeds_issuer e1 e2 e3 e4 e5 (params : Params) db r db'
    user calls administrator :
  get_context params db = Ok (user, calls, administrator) →
  create_api_key e1 e2 e3 e4 e5 params db = (Ok r, db') →
  ∃ api_key,
    db' = set_api_keys
            (insert (api_key_digest (format_key e1 e2 e3 e4 e5)) api_key) db ∧
    APIKey.owner api_key = User.username user ∧
    ((∀ m, m ∈ APIKey.allowed_api_calls api_key → m ∈ calls) ∨ "*" ∈ calls).
Proof.
  intros Hctx Hrun.
  apply create_api_key_Ok in Hrun
    as (user' & calls' & administrator' & granted & Hctx' & Hcheck & _ & _ & ->).
  rewrite Hctx in Hctx'. injection Hctx' as <- <- <-.
  eexists. split; [reflexivity|]. split; [reflexivity|]. simpl.
  destruct (truthy _).
  - by destruct Hcheck as [_ Hsub].
  - subst granted. by left.
Qed.

(** X2.  [create_api_key] only ever adds: users, roles, actions and targets
    are as before, every key stored before is still stored, unchanged, and
    a call that fails leaves the whole store as it was. *)
Theorem create_api_key_only_adds e1 e2 e3 e4 e5 (params : Params) db r db' :
  create_api_key e1 e2 e3 e4 e5 params db = (r, db') →
  db_users db' = db_users db ∧ db_roles db' = db_roles db ∧
  db_actions db' = db_actions db ∧ db_targets db' = db_targets db ∧
  (∀ k a, db_api_keys db !! k = Some a → db_api_keys db' !! k = Some a) ∧
  (∀ e, r = Err e → db' = db).
Proof.
  intros Hrun. destruct r as [r|e].
  - apply create_api_key_Ok in Hrun
      as (user & calls & administrator & granted & _ & _ & Hfresh & _ & ->).
    simpl. repeat (split; [done|]). split; [|done].
    intros k a Hk. rewrite lookup_insert_ne; [done|]. intros <-. congruence.
  - apply create_api_key_Err in Hrun as ->. done.
Qed.

Lemma length_chars (s : string) : length (chars s) = String.length s.
Proof. induction s as [|c s IH]; simpl; [done|]. by rewrite IH. Qed.

Lemma hex_pad_length (k : nat) : ∀ n acc,
  String.length (hex_pad k n acc) = (k + String.length acc)%nat.
Proof.
  induction k as [|k IH]; intros n acc; simpl; [done|]. rewrite IH. simpl. lia.
Qed.

Lemma substring_length (s : string) : ∀ n m,
  (n + m ≤ String.length s)%nat → String.length (substring n m s) = m.
Proof.
  induction s as [|c s IH]; intros n m; simpl.
  - intros Hle. assert (n = 0%nat ∧ m = 0%nat) as [-> ->] by lia. done.
  - destruct n as [|n]; [destruct m as [|m]|]; simpl; intros Hle.
    + done.
    + rewrite IH; [done|lia].
    + apply IH. lia.
Qed.

Lemma append_length (s1 s2 : string) :
  String.length (s1 ++ s2) = (String.length s1 + String.length s2)%nat.
Proof. induction s1 as [|c s1 IH]; simpl; [done|]. by rewrite IH. Qed.

Lemma uuid_str_length (u : N) : String.length (uuid_str u) = 36%nat.
Proof.
  unfold uuid_str. rewrite !append_length.
  rewrite !substring_length by (rewrite hex_pad_length; simpl; lia). done.
Qed.

(** X3.  The secret that [create_api_key] hands out is always 180
    characters long and made of lower-case hexadecimal digits and hyphens
    only. *)
Theorem create_api_key_secret_format e1 e2 e3 e4 e5 (params : Params) db r db' :
  create_api_key e1 e2 e3 e4 e5 params db = (Ok r, db') →
  ∃ secret,
    r = success_api_key secret ∧
    String.length secret = 180%nat ∧
    Forall (.∈ uuid_alphabet) (chars secret).
Proof.
  intros Hrun.
  apply create_api_key_Ok in Hrun as (? & ? & ? & ? & _ & _ & _ & -> & _).
  exists (format_key e1 e2 e3 e4 e5). split; [done|]. split.
  - unfold format_key. rewrite !append_length, !uuid_str_length. done.
  - apply format_key_alphabet.
Qed.

(** *** revoke_api_key *)

Lemma revoke_api_key_cases (params : Params) db r db' :
  revoke_api_key params db = (r, db') →
  (∃ e, r = Err e ∧ db' = db) ∨
  (∃ user calls administrator secret api_key,
     get_context params db = Ok (user, calls, administrator) ∧
     params !! "api_key" = Some (VStr secret) ∧
     db_api_keys db !! api_key_digest secret = Some api_key ∧
     (APIKey.owner api_key = User.username user ∨ administrator = true) ∧
     r = Ok success_response ∧
     db' = set_api_keys (delete (APIKey.key api_key)) db).
Proof.
  unfold revoke_api_key, APIKey_get_key. unfold_m. intros H.
  destruct (get_context params db) as [[[user calls] administrator]|] eqn:Hctx;
    [|left; eexists; by simplify_eq].
  simpl in H.
  destruct (getitem params "api_key") as [v|] eqn:Hparam;
    [|left; eexists; by simplify_eq].
  apply getitem_Ok in Hparam.
  destruct v as [| | |secret|]; try (left; eexists; by simplify_eq).
  destruct (db_api_keys db !! api_key_digest secret) as [api_key|] eqn:Hkey;
    [|left; eexists; by simplify_eq].
  destruct (negb (String.eqb (APIKey.owner api_key) (User.username user))
            && negb administrator) eqn:Hguard.
  - left; eexists; by simplify_eq.
  - right. exists user, calls, administrator, secret, api_key.
    repeat (split; [done|]). split; [|by simplify_eq].
    apply andb_false_iff in Hguard as [Hown | Hadm].
    + left. apply negb_false_iff in Hown. by apply String.eqb_eq.
    + right. by apply negb_false_iff.
Qed.

(** X4.  Creating a key and then revoking it with the secret that was
    handed out, as its owner or as an administrator, brings the store back
    to what it was before the key was created. *)
Theorem create_api_key_then_revoke e1 e2 e3 e4 e5 (params revocation : Params) db r db'
    user calls administrator revoker calls' administrator' :
  get_context params db = Ok (user, calls, administrator) →
  create_api_key e1 e2 e3 e4 e5 params db = (Ok r, db') →
  get_context revocation db' = Ok (revoker, calls', administrator') →
  User.username revoker = User.username user ∨ administrator' = true →
  ∃ secret,
    r = success_api_key secret ∧
    (revocation !! "api_key" = Some (VStr secret) →
     revoke_api_key revocation db' = (Ok success_response, db)).
Proof.
  intros Hctx Hrun Hctx' Hmay.
  apply create_api_key_Ok in Hrun
    as (user' & ? & ? & granted & Hctx2 & _ & Hfresh & -> & ->).
  rewrite Hctx in Hctx2. injection Hctx2 as <- <- <-.
  eexists. split; [reflexivity|]. intros Hparam.
  unfold revoke_api_key, APIKey_get_key. unfold_m.
  rewrite Hctx'. simpl. rewrite (getitem_Some _ _ _ Hparam). simpl.
  rewrite lookup_insert_eq. simpl.
  assert (Hguard : negb (String.eqb (User.username user) (User.username revoker))
                   && negb administrator' = false).
  { destruct Hmay as [Heq | ->]; [|by rewrite andb_false_r].
    rewrite Heq, String.eqb_refl. done. }
  rewrite Hguard. by rewrite set_api_keys_delete_insert.
Qed.

(** X5.  [revoke_api_key] only ever removes: users, roles, actions and
    targets are as before, every key stored afterwards was stored before,
    unchanged, and a call that fails leaves the whole store as it was. *)
Theorem revoke_api_key_only_removes (params : Params) db r db' :
  revoke_api_key params db = (r, db') →
  db_users db' = db_users db ∧ db_roles db' = db_roles db ∧
  db_actions db' = db_actions db ∧ db_targets db' = db_targets db ∧
  (∀ k a, db_api_keys db' !! k = Some a → db_api_keys db !! k = Some a) ∧
  (∀ e, r = Err e → db' = db).
Proof.
  intros Hrun. apply revoke_api_key_cases in Hrun
    as [(e & -> & ->) | (? & ? & ? & ? & api_key & _ & _ & _ & _ & -> & ->)].
  - done.
  - simpl. repeat (split; [done|]). split; [|done].
    intros k a Hk. apply lookup_delete_Some in Hk as [_ Hk]. done.
Qed.

(** *** Users and passwords *)

Lemma create_user_Ok (params : Params) db r db' :
  create_user params db = (Ok r, db') →
  ∃ username plaintext,
    params !! "username" = Some (VStr username) ∧
    params !! "password" = Some (VStr plaintext) ∧
    db_users db !! username = None ∧
    db' = set_users
            (insert username (User.mk username (hash_password plaintext) false)) db.
Proof.
  unfold create_user, User_hash_password, User_new. unfold_m. intros H.
  destruct (getitem params "password") as [pw|] eqn:Hpw; [|done].
  destruct pw as [| | |plaintext|]; try done.
  destruct (getitem (delete "password" params) "username") as [un|] eqn:Hun; [|done].
  destruct un as [| | |username|]; try done. simpl in H.
  destruct (db_users db !! username) eqn:Hfresh; [done|].
  exists username, plaintext. simplify_eq.
  apply getitem_Ok in Hpw, Hun. rewrite lookup_delete_ne in Hun by done.
  done.
Qed.

(** X6.  [create_user] only ever adds: keys, roles, actions and targets are
    as before, every user stored before is still stored, unchanged, a
    request for a username that is taken does not succeed, and a call that
    fails leaves the whole store as it was. *)
Theorem create_user_only_adds (params : Params) db r db' :
  create_user params db = (r, db') →
  db_api_keys db' = db_api_keys db ∧ db_roles db' = db_roles db ∧
  db_actions db' = db_actions db ∧ db_targets db' = db_targets db ∧
  (∀ k u, db_users db !! k = Some u → db_users db' !! k = Some u) ∧
  (∀ username, params !! "username" = Some (VStr username) →
               is_Some (db_users db !! username) → ∃ e, r = Err e) ∧
  (∀ e, r = Err e → db' = db).
Proof.
  intros Hrun. destruct r as [r|e].
  - apply create_user_Ok in Hrun
      as (username & plaintext & Hun & _ & Hfresh & ->).
    simpl. repeat (split; [done|]). split; [|split; [|done]].
    + intros k u Hk. rewrite lookup_insert_ne; [done|]. intros <-. congruence.
    + intros username' Hun' [u Hu]. congruence.
  - assert (db' = db) as ->.
    { revert Hrun. unfold create_user, User_hash_password, User_new. unfold_m.
      intros H. repeat (case_match; simplify_eq; try done). }
    repeat (split; [done|]). split; [eauto | done].
Qed.

Lemma update_user_password_cases (params : Params) db user calls administrator r db' :
  get_context params db = Ok (user, calls, administrator) →
  update_user_password params db = (r, db') →
  (∃ e, r = Err e ∧ db' = db) ∨
  (∃ new_password,
     params !! "new_password" = Some (VStr new_password) ∧
     (administrator && negb (User.administrator user) = true ∨
      ∃ current, params !! "current_password" = Some (VStr current) ∧
                 verify_password current (User.password user) = true) ∧
     r = Ok success_response ∧
     db' = set_users
             (insert (User.username user)
                (User.mk (User.username user) (hash_password new_password)
                   (User.administrator user))) db).
Proof.
  intros Hctx. unfold update_user_password, User_update_password, User_hash_password.
  unfold_m. rewrite Hctx. simpl.
  destruct (administrator && negb (User.administrator user)) eqn:Hguard.
  - destruct (getitem params "new_password") as [v|] eqn:Hnew;
      [|intros [= <- <-]; left; by eauto].
    apply getitem_Ok in Hnew.
    destruct v as [| | |new_password|]; try (intros [= <- <-]; left; by eauto).
    simpl. intros [= <- <-]. right. exists new_password.
    split; [done|]. split; [by left|]. done.
  - destruct (getitem params "current_password") as [c|] eqn:Hcur;
      [|intros [= <- <-]; left; by eauto].
    destruct (getitem params "new_password") as [v|] eqn:Hnew;
      [|intros [= <- <-]; left; by eauto].
    apply getitem_Ok in Hcur, Hnew. simpl.
    destruct c as [| | |current|]; try (intros [= <- <-]; left; by eauto).
    destruct (verify_password current (User.password user)) eqn:Hverify;
      [|intros [= <- <-]; left; by eauto].
    destruct v as [| | |new_password|]; try (intros [= <- <-]; left; by eauto).
    simpl. intros [= <- <-]. right. exists new_password.
    split; [done|]. split; [right; eauto|]. done.
Qed.

(** X7.  Without the administrator override (the context does not report
    an administrator, or the resolved user is an administrator account), and
    with a resolver that hands out the user document as it is stored, a
    password is only ever replaced when the request's [current_password]
    verifies against the hash stored for that user. *)
Theorem update_user_password_checks_current (params : Params) db user calls
    administrator r db' :
  resolves_stored_user params db →
  get_context params db = Ok (user, calls, administrator) →
  administrator = false ∨ User.administrator user = true →
  update_user_password params db = (Ok r, db') →
  ∃ stored current new_password,
    db_users db !! User.username user = Some stored ∧
    params !! "current_password" = Some (VStr current) ∧
    params !! "new_password" = Some (VStr new_password) ∧
    verify_password current (User.password stored) = true ∧
    db' = set_users
            (insert (User.username user)
               (User.mk (User.username stored) (hash_password new_password)
                  (User.administrator stored))) db.
Proof.
  intros Hres Hctx Hcase Hrun.
  destruct (update_user_password_cases _ _ _ _ _ _ _ Hctx Hrun)
    as [(e & [=] & _) | (new_password & Hnew & Hwhy & _ & ->)].
  destruct Hwhy as [Hguard | (current & Hcur & Hverify)].
  - apply andb_true_iff in Hguard as [-> Hnot]. apply negb_true_iff in Hnot.
    destruct Hcase; congruence.
  - exists user, current, new_password. split; [by eapply Hres | done].
Qed.

(** X8.  With a resolver that hands out the user document as it is stored,
    [update_user_password] touches nothing but the password of that user:
    every other user, and every key, role, action and target, is as before;
    the user's record is either as before or differs from the stored one in
    its password only, keeping username and administrator flag; a call that
    fails leaves the whole store as it was. *)
Theorem update_user_password_only_password (params : Params) db user calls
    administrator r db' :
  resolves_stored_user params db →
  get_context params db = Ok (user, calls, administrator) →
  update_user_password params db = (r, db') →
  db_api_keys db' = db_api_keys db ∧ db_roles db' = db_roles db ∧
  db_actions db' = db_actions db ∧ db_targets db' = db_targets db ∧
  (∀ k, k ≠ User.username user → db_users db' !! k = db_users db !! k) ∧
  (∃ stored,
     db_users db !! User.username user = Some stored ∧
     (db_users db' !! User.username user = Some stored ∨
      ∃ h, db_users db' !! User.username user
           = Some (User.mk (User.username stored) h (User.administrator stored)))) ∧
  (∀ e, r = Err e → db' = db).
Proof.
  intros Hres Hctx Hrun. pose proof (Hres _ _ _ Hctx) as Hstored.
  destruct (update_user_password_cases _ _ _ _ _ _ _ Hctx Hrun)
    as [(e & -> & ->) | (new_password & _ & _ & -> & ->)].
  - repeat (split; [done|]). split; [|done]. exists user. split; [done | by left].
  - simpl. repeat (split; [done|]). split; [|split; [|done]].
    + intros k Hk. by rewrite lookup_insert_ne.
    + exists user. split; [done|]. right. eexists. apply lookup_insert_eq.
Qed.

(** *** Actions *)

(** X9.  When the resolver returns a user, the owner of the action that
    [create_action] builds is that user's username; when the resolver
    raises, an action is built only if the exception is [KeyError], and its
    owner is then ["No owner"]. *)
Theorem create_action_owner entropy now (params : Params) commit db r db' :
  create_action entropy now params commit db = (Ok r, db') →
  ∃ action,
    (if commit
     then r = success_action_id (Action.action_id action) ∧
          db' = set_actions (insert (Action.action_id action) action) db
     else r = unsaved_action action ∧ db' = db) ∧
    match get_context params db with
    | Ok (user, _, _) => Action.owner action = User.username user
    | Err e => Action.owner action = "No owner" ∧ ∃ key, e = KeyError key
    end.
Proof.
  intros Hrun. apply create_action_Ok in Hrun
    as (tn & target & astr & parsed & atype & aid & bsid & owner
        & _ & _ & _ & _ & _ & _ & Howner & _ & Hdone).
  exists (Action.update_fields
            (Action.mk aid tn astr atype bsid now owner ∅ false false) parsed).
  simpl in Hdone. split.
  - destruct commit; simpl; [|done]. by destruct Hdone as (_ & -> & ->).
  - simpl. revert Howner. unfold try_get_username.
    destruct (get_context params db) as [[[user calls] administrator]|e].
    + by intros [= <-].
    + destruct e; try done. intros [= <-]. eauto.
Qed.


(** X11.  [create_action] only ever adds: users, keys, roles and targets are
    as before, every action stored before is still stored, unchanged (an
    [action_id] that is taken is refused), and a call that fails leaves the
    whole store as it was. *)
Theorem create_action_only_adds entropy now (params : Params) commit db r db' :
  create_action entropy now params commit db = (r, db') →
  db_users db' = db_users db ∧ db_api_keys db' = db_api_keys db ∧
  db_roles db' = db_roles db ∧ db_targets db' = db_targets db ∧
  (∀ k a, db_actions db !! k = Some a → db_actions db' !! k = Some a) ∧
  (∀ e, r = Err e → db' = db).
Proof.
  intros Hrun. destruct r as [reply|e].
  - apply create_action_Ok in Hrun
      as (? & ? & ? & ? & ? & aid & ? & ? & _ & _ & _ & _ & _ & _ & _ & _ & Hdone).
    simpl in Hdone. destruct commit.
    + destruct Hdone as (Hfresh & _ & ->). simpl.
      repeat (split; [done|]). split; [|done].
      intros k a Hk. rewrite lookup_insert_ne; [done|]. intros <-. congruence.
    + by destruct Hdone as [_ ->].
  - apply create_action_Err_db in Hrun as ->. done.
Qed.

Lemma min_from_first {A : Type} (key : A → Z) (xs : list A) : ∀ best,
  (min_from key best xs = best ∧ ∀ x, x ∈ xs → key best ≤ key x) ∨
  (∃ before after,
     xs = (before ++ min_from key best xs :: after)%list ∧
     key (min_from key best xs) < key best ∧
     (∀ x, x ∈ before → key (min_from key best xs) < key x) ∧
     (∀ x, x ∈ after → key (min_from key best xs) ≤ key x)).
Proof.
  induction xs as [|y xs IH]; intros best; simpl.
  - left. split; [done|]. intros x Hx. by apply elem_of_nil in Hx.
  - destruct (Z.ltb_spec (key y) (key best)) as [Hlt | Hge].
    + right. destruct (IH y) as [[Heq Hle] | (before & after & Hxs & Hlt' & Hb & Ha)].
      * exists [], xs. rewrite Heq. simpl. split; [done|]. split; [done|].
        split; [|done]. intros x Hx. by apply elem_of_nil in Hx.
      * exists (y :: before), after. split; [simpl; by rewrite <- Hxs|].
        split; [lia|]. split; [|done].
        intros x Hx. apply elem_of_cons in Hx as [-> | Hx]; [done | by apply Hb].
    + destruct (IH best) as [[Heq Hle] | (before & after & Hxs & Hlt' & Hb & Ha)].
      * left. split; [done|]. intros x Hx.
        apply elem_of_cons in Hx as [-> | Hx]; [done | by apply Hle].
      * right. exists (y :: before), after. split; [simpl; by rewrite <- Hxs|].
        split; [done|]. split; [|done].
        intros x Hx. apply elem_of_cons in Hx as [-> | Hx]; [lia | by apply Hb].
Qed.

Lemma py_min_first {A : Type} (key : A → Z) (xs : list A) (m : A) :
  py_min key xs = Ok m →
  ∃ before after,
    xs = (before ++ m :: after)%list ∧
    (∀ x, x ∈ before → key m < key x) ∧
    (∀ x, x ∈ after → key m ≤ key x).
Proof.
  destruct xs as [|x xs]; simpl; [done|]. intros [= <-].
  destruct (min_from_first key xs x)
    as [[Heq Hle] | (before & after & Hxs & Hlt & Hb & Ha)].
  - exists [], xs. rewrite Heq. split; [done|]. split; [|done].
    intros y Hy. by apply elem_of_nil in Hy.
  - exists (x :: before), after. split; [simpl; by rewrite <- Hxs|].
    split; [|done].
    intros y Hy. apply elem_of_cons in Hy as [-> | Hy]; [done | by apply Hb].
Qed.

(** X12.  Ties in quick mode go to the earliest session: in the order of
    the target's sessions, every active session before the bound one has a
    strictly larger interval, and none after it has a smaller one. *)
Theorem create_action_quick_first_fastest entropy now (params : Params) commit db r db'
    tn target :
  truthy (dict_get_default params "quick" (VBool false)) = true →
  params !! "target_name" = Some (VStr tn) →
  db_targets db !! tn = Some target →
  create_action entropy now params commit db = (Ok r, db') →
  ∃ s before after action,
    filter (λ x, Session.status x = active_status) (Target.sessions target)
      = (before ++ s :: after)%list ∧
    (∀ x, x ∈ before → Session.interval s < Session.interval x) ∧
    (∀ x, x ∈ after → Session.interval s ≤ Session.interval x) ∧
    Action.bound_session_id action = Some (Session.session_id s) ∧
    if commit
    then r = success_action_id (Action.action_id action) ∧
         db' = set_actions (insert (Action.action_id action) action) db
    else r = unsaved_action action ∧ db' = db.
Proof.
  intros Hquick Htn Htarget Hrun.
  apply create_action_Ok in Hrun
    as (tn' & target' & astr & parsed & atype & aid & bsid & owner
        & Htn' & Htarget' & _ & _ & _ & _ & _ & Hbind & Hdone).
  simplify_eq. rewrite Hquick in Hbind. destruct Hbind as (s & Hmin & ->).
  apply py_min_first in Hmin as (before & after & Hsplit & Hb & Ha).
  exists s, before, after,
    (Action.update_fields
       (Action.mk aid tn astr atype (Some (Session.session_id s)) now owner ∅ false false)
       parsed).
  repeat (split; [done|]).
  simpl in Hdone. destruct commit; simpl; [|done].
  by destruct Hdone as (_ & -> & ->).
Qed.

(** X13.  Outside quick mode the binding is taken on trust: whatever string
    the request gives as [bound_session_id] (whether or not it names a
    session of the target) is what a valid request's action is bound to. *)
Theorem create_action_binding_unchecked entropy now (params : Params) db
    tn target astr parsed atype aid owner sid :
  params !! "target_name" = Some (VStr tn) →
  db_targets db !! tn = Some target →
  params !! "action_string" = Some (VStr astr) →
  parse_action_string astr = Ok parsed →
  parsed !! "action_type" = Some atype →
  dict_get_default params "action_id" (VStr (uuid_str (uuid4 entropy))) = VStr aid →
  db_actions db !! aid = None →
  try_get_username params "No owner" db = (Ok owner, db) →
  truthy (dict_get_default params "quick" (VBool false)) = false →
  params !! "bound_session_id" = Some (VStr sid) →
  ∃ action,
    create_action entropy now params true db =
      (Ok (success_action_id aid), set_actions (insert aid action) db) ∧
    Action.bound_session_id action = Some sid.
Proof.
  intros Htn Htarget Has Hparse Hty Haid Hfresh Howner Hquick Hsid.
  eexists. split.
  - apply (create_action_succeeds entropy now params true db
             tn target astr parsed atype aid (Some sid) owner); try done.
    rewrite Hquick. unfold dict_get. by rewrite Hsid.
  - done.
Qed.

(** *** duplicate_action *)

Ltac lookup_literal :=
  repeat first
    [ rewrite lookup_insert_eq
    | rewrite lookup_insert_ne by done
    | rewrite lookup_singleton_eq
    | rewrite lookup_singleton_ne by done ].

(** X14.  A successful [duplicate_action] stores one new action beside the
    original: it gets the freshly drawn UUID as its id, the original's
    [target_name] and [action_string], the original's binding when that is a
    non-empty session id (otherwise none), and it starts out [Queued]
    whatever has become of the original, which stays as it was. *)
Theorem duplicate_action_copies entropy now (params : Params) db r db' aid original :
  params !! "action_id" = Some (VStr aid) →
  db_actions db !! aid = Some original →
  duplicate_action entropy now params db = (Ok r, db') →
  ∃ copy,
    r = success_action_id (uuid_str (uuid4 entropy)) ∧
    db_actions db !! uuid_str (uuid4 entropy) = None ∧
    db' = set_actions (insert (uuid_str (uuid4 entropy)) copy) db ∧
    db_actions db' !! aid = Some original ∧
    Action.action_id copy = uuid_str (uuid4 entropy) ∧
    Action.target_name copy = Action.target_name original ∧
    Action.action_string copy = Action.action_string original ∧
    Action.bound_session_id copy
      = (if truthy (opt_str_value (Action.bound_session_id original))
         then Action.bound_session_id original else None) ∧
    Action.queue_time copy = now ∧
    Action.status copy = Action.Queued.
Proof.
  intros Hid Horig. unfold duplicate_action, Action_get_by_id. unfold_m.
  rewrite (getitem_Some _ _ _ Hid), Horig.
  destruct (getitem params "arsenal_auth_object") as [auth|]; [|done].
  intros Hrun. apply create_action_Ok in Hrun
    as (tn & target & astr & parsed & atype & new_id & bsid & owner
        & Htn & _ & Has & _ & _ & Hnew & _ & Hbind & Hfresh & -> & ->).
  assert (tn = Action.target_name original ∧ astr = Action.action_string original
          ∧ new_id = uuid_str (uuid4 entropy)
          ∧ bsid = (if truthy (opt_str_value (Action.bound_session_id original))
                    then Action.bound_session_id original else None))
    as (-> & -> & -> & ->).
  { revert Htn Has Hnew Hbind. unfold dict_get_default, dict_get.
    destruct (truthy (opt_str_value (Action.bound_session_id original))) eqn:Htruthy;
      lookup_literal; simpl.
    - destruct (Action.bound_session_id original) as [s|]; [|done]. simpl.
      by intros [= ->] [= ->] [= ->] [= <-].
    - by intros [= ->] [= ->] [= ->] [= <-]. }
  eexists. split; [done|]. split; [done|]. split; [done|]. split; [|done].
  simpl. rewrite lookup_insert_ne; [done|]. intros Heq. congruence.
Qed.

(** X15.  Of a [duplicate_action] request only [action_id] and the auth
    object matter: nothing else in it (a [user_context], [quick], a
    [target_name], a [bound_session_id]) reaches [create_action]. *)
Theorem duplicate_action_reads_two_keys entropy now (params params' : Params) db :
  params !! "action_id" = params' !! "action_id" →
  params !! "arsenal_auth_object" = params' !! "arsenal_auth_object" →
  duplicate_action entropy now params db = duplicate_action entropy now params' db.
Proof.
  intros Hid Hauth. unfold duplicate_action, getitem. by rewrite Hid, Hauth.
Qed.

(** *** update_role_permissions *)

(** X16.  A successful [update_role_permissions] rewrites the permission
    list of a role that was already stored and nothing else: the role keeps
    its name and its members, and no role is created. *)
Theorem update_role_permissions_keeps_members (params : Params) db r db' :
  update_role_permissions params db = (Ok r, db') →
  ∃ role_name role calls,
    params !! "role_name" = Some (VStr role_name) ∧
    db_roles db !! role_name = Some role ∧
    params !! "allowed_api_calls" = Some (VList (VStr <$> calls)) ∧
    r = success_response ∧
    db' = set_roles
            (insert (Role.name role)
               (Role.mk (Role.name role) calls (Role.users role))) db.
Proof.
  unfold update_role_permissions, Role_get_role. unfold_m. intros H.
  destruct (getitem params "role_name") as [v|] eqn:Hname; [|done].
  apply getitem_Ok in Hname. simpl in H.
  destruct v as [| | |role_name|]; try done.
  destruct (db_roles db !! role_name) as [role|] eqn:Hrole; [|done].
  destruct (getitem params "allowed_api_calls") as [v|] eqn:Hcalls; [|done].
  apply getitem_Ok in Hcalls. simpl in H.
  destruct (as_str_list v) as [calls|] eqn:Hlist; [|done].
  apply as_str_list_Ok in Hlist as ->. simpl in H.
  exists role_name, role, calls. by simplify_eq.
Qed.

(** *** Invariants of the store *)

Lemma update_role_permissions_Err (params : Params) db e db' :
  update_role_permissions params db = (Err e, db') → db' = db.
Proof.
  unfold update_role_permissions, Role_get_role. unfold_m. intros H.
  repeat (case_match; simplify_eq; try done).
Qed.

Lemma get_action_db (params : Params) db r db' :
  get_action params db = (r, db') → db' = db.
Proof.
  unfold get_action, Action_get_by_id. unfold_m. intros H.
  repeat (case_match; simplify_eq; try done).
Qed.

Lemma duplicate_action_cases entropy now (params : Params) db r db' :
  duplicate_action entropy now params db = (r, db') →
  db' = db ∨ ∃ local_params, create_action entropy now local_params true db = (r, db').
Proof.
  unfold duplicate_action, Action_get_by_id. unfold_m. intros H.
  destruct (getitem params "action_id") as [v|]; [|left; by simplify_eq].
  simpl in H. destruct v as [| | |aid|]; try (left; by simplify_eq).
  destruct (db_actions db !! aid) as [original|]; [|left; by simplify_eq].
  destruct (getitem params "arsenal_auth_object") as [auth|]; [|left; by simplify_eq].
  simpl in H. right. eauto.
Qed.

Lemma create_action_cases entropy now (params : Params) commit db r db' :
  create_action entropy now params commit db = (r, db') →
  db' = db ∨
  ∃ action, db_actions db !! Action.action_id action = None ∧
            db' = set_actions (insert (Action.action_id action) action) db.
Proof.
  intros Hrun. destruct r as [reply|e].
  - apply create_action_Ok in Hrun
      as (tn & ? & astr & parsed & atype & aid & bsid & owner
          & _ & _ & _ & _ & _ & _ & _ & _ & Hdone).
    simpl in Hdone. destruct commit.
    + destruct Hdone as (Hfresh & _ & ->). right.
      by exists (Action.update_fields
                   (Action.mk aid tn astr atype bsid now owner ∅ false false) parsed).
    + destruct Hdone as [_ ->]. by left.
  - apply create_action_Err_db in Hrun as ->. by left.
Qed.

Lemma create_user_Err (params : Params) db e db' :
  create_user params db = (Err e, db') → db' = db.
Proof.
  unfold create_user, User_hash_password, User_new. unfold_m.
  intros H. repeat (case_match; simplify_eq; try done).
Qed.

Lemma update_role_permissions_Ok (params : Params) db r db' :
  update_role_permissions params db = (Ok r, db') →
  ∃ role_name role calls,
    params !! "role_name" = Some (VStr role_name) ∧
    db_roles db !! role_name = Some role ∧
    params !! "allowed_api_calls" = Some (VList (VStr <$> calls)) ∧
    db' = set_roles
            (insert (Role.name role)
               (Role.mk (Role.name role) calls (Role.users role))) db.
Proof.
  unfold update_role_permissions, Role_get_role. unfold_m. intros H.
  destruct (getitem params "role_name") as [v|] eqn:Hname; [|done].
  apply getitem_Ok in Hname. simpl in H.
  destruct v as [| | |role_name|]; try done.
  destruct (db_roles db !! role_name) as [role|] eqn:Hrole; [|done].
  destruct (getitem params "allowed_api_calls") as [v|] eqn:Hcalls; [|done].
  apply getitem_Ok in Hcalls. simpl in H.
  destruct (as_str_list v) as [calls|] eqn:Hlist; [|done].
  apply as_str_list_Ok in Hlist as ->. simpl in H.
  exists role_name, role, calls. by simplify_eq.
Qed.


(** X18.  No call makes an administrator: a user who is an administrator
    after a call of any of the API functions was stored as an administrator
    before it. *)
Theorem api_call_no_new_administrator db db' :
  api_call db db' →
  ∀ k u, db_users db' !! k = Some u → User.administrator u = true →
         ∃ u0, db_users db !! k = Some u0 ∧ User.administrator u0 = true.
Proof.
  intros Hcall.
  assert (Hsame : db_users db' = db_users db →
                  ∀ k u, db_users db' !! k = Some u → User.administrator u = true →
                         ∃ u0, db_users db !! k = Some u0 ∧ User.administrator u0 = true).
  { intros -> k u Hk Hadm. eauto. }
  destruct Hcall as
    [params r db db' Hrun | e1 e2 e3 e4 e5 params r db db' Hrun
    | params r db db' Hrun | params r db db' Hres Hrun | params r db db' Hrun
    | params r db db' Hrun | entropy now params commit r db db' Hrun
    | params r db db' Hrun | entropy now params r db db' Hrun].
  - destruct r as [r|e].
    + apply create_user_Ok in Hrun as (username & plaintext & _ & _ & _ & ->).
      simpl. intros k u Hk Hadm.
      apply lookup_insert_Some in Hk as [[_ <-] | [_ Hk]]; [done | eauto].
    + apply create_user_Err in Hrun as ->. by apply Hsame.
  - apply Hsame. destruct r as [r|e].
    + by apply create_api_key_Ok in Hrun as (? & ? & ? & ? & _ & _ & _ & _ & ->).
    + by apply create_api_key_Err in Hrun as ->.
  - apply Hsame. by apply create_role_persists_nothing in Hrun as [-> _].
  - destruct (get_context params db) as [[[user calls] administrator]|e] eqn:Hctx.
    + destruct (update_user_password_cases _ _ _ _ _ _ _ Hctx Hrun)
        as [(e & _ & ->) | (new_password & _ & _ & _ & ->)]; [by apply Hsame|].
      simpl. intros k u Hk Hadm.
      apply lookup_insert_Some in Hk as [[<- <-] | [_ Hk]]; [|eauto].
      exists user. split; [|done]. by eapply Hres.
    + apply Hsame. revert Hrun. unfold update_user_password. unfold_m. rewrite Hctx.
      by intros [= _ <-].
  - apply Hsame. destruct r as [r|e].
    + by apply update_role_permissions_Ok in Hrun as (? & ? & ? & _ & _ & _ & ->).
    + by apply update_role_permissions_Err in Hrun as ->.
  - apply Hsame. by apply revoke_api_key_cases in Hrun
      as [(e & _ & ->) | (? & ? & ? & ? & api_key & _ & _ & _ & _ & _ & ->)].
  - apply Hsame. by apply create_action_cases in Hrun as [-> | (action & _ & ->)].
  - apply Hsame. by apply get_action_db in Hrun as ->.
  - apply Hsame. apply duplicate_action_cases in Hrun as [-> | [local_params Hrun]];
      [done|].
    by apply create_action_cases in Hrun as [-> | (action & _ & ->)].
Qed.

(** X19.  [update_role_permissions] is idempotent on a well-filed store:
    sending a request that succeeded once more succeeds again and leaves the
    store as the first call left it. *)
Theorem update_role_permissions_idempotent (params : Params) db r db' :
  well_filed db →
  update_role_permissions params db = (Ok r, db') →
  update_role_permissions params db' = (Ok r, db').
Proof.
  intros (_ & _ & Hroles & _) Hrun.
  assert (r = success_response) as ->.
  { revert Hrun. unfold update_role_permissions, Role_get_role. unfold_m. intros H.
    repeat (case_match; simplify_eq; try done). }
  apply update_role_permissions_Ok in Hrun
    as (role_name & role & calls & Hname & Hrole & Hcalls & ->).
  rewrite (Hroles _ _ Hrole).
  unfold update_role_permissions, Role_get_role. unfold_m.
  rewrite (getitem_Some _ _ _ Hname), (getitem_Some _ _ _ Hcalls). simpl.
  rewrite lookup_insert_eq. unfold as_str_list. rewrite as_strs_VStr. simpl.
  destruct db as [us ks rs acts ts]. unfold set_roles. simpl.
  by rewrite insert_insert_eq.
Qed.

(** X20.  A key can be revoked once: after a successful [revoke_api_key]
    for a key filed under its own digest, any further request presenting
    the same secret fails with [NotFound] and changes nothing. *)
Theorem revoke_api_key_twice (params again : Params) db r db' secret api_key
    user calls administrator :
  params !! "api_key" = Some (VStr secret) →
  db_api_keys db !! api_key_digest secret = Some api_key →
  APIKey.key api_key = api_key_digest secret →
  revoke_api_key params db = (Ok r, db') →
  again !! "api_key" = Some (VStr secret) →
  get_context again db' = Ok (user, calls, administrator) →
  revoke_api_key again db' = (Err NotFound, db').
Proof.
  intros Hparam Hkey Hfiled Hrun Hagain Hctx.
  apply revoke_api_key_cases in Hrun
    as [(e & [=] & _) | (? & ? & ? & secret' & api_key' & _ & Hparam' & Hkey' & _ & _ & ->)].
  rewrite Hparam in Hparam'. injection Hparam' as <-.
  rewrite Hkey in Hkey'. injection Hkey' as <-. rewrite Hfiled in Hctx |- *.
  unfold revoke_api_key, APIKey_get_key. unfold_m.
  rewrite Hctx. simpl. rewrite (getitem_Some _ _ _ Hagain). simpl.
  by rewrite lookup_delete_eq.
Qed.

(** X21.  The target directory is only read: no call of any of the API
    functions changes it, whatever its outcome and whatever the resolver
    answers. *)
Theorem any_api_call_targets_read_only db db' :
  any_api_call db db' → db_targets db' = db_targets db.
Proof.
  intros Hcall.
  destruct Hcall as
    [params r db db' Hrun | e1 e2 e3 e4 e5 params r db db' Hrun
    | params r db db' Hrun | params r db db' Hrun | params r db db' Hrun
    | params r db db' Hrun | entropy now params commit r db db' Hrun
    | params r db db' Hrun | entropy now params r db db' Hrun].
  - destruct r as [r|e].
    + by apply create_user_Ok in Hrun as (? & ? & _ & _ & _ & ->).
    + by apply create_user_Err in Hrun as ->.
  - destruct r as [r|e].
    + by apply create_api_key_Ok in Hrun as (? & ? & ? & ? & _ & _ & _ & _ & ->).
    + by apply create_api_key_Err in Hrun as ->.
  - by apply create_role_persists_nothing in Hrun as [-> _].
  - destruct (get_context params db) as [[[user calls] administrator]|e] eqn:Hctx.
    + by destruct (update_user_password_cases _ _ _ _ _ _ _ Hctx Hrun)
        as [(e & _ & ->) | (new_password & _ & _ & _ & ->)].
    + revert Hrun. unfold update_user_password. unfold_m. rewrite Hctx.
      by intros [= _ <-].
  - destruct r as [r|e].
    + by apply update_role_permissions_Ok in Hrun as (? & ? & ? & _ & _ & _ & ->).
    + by apply update_role_permissions_Err in Hrun as ->.
  - by apply revoke_api_key_cases in Hrun
      as [(e & _ & ->) | (? & ? & ? & ? & api_key & _ & _ & _ & _ & _ & ->)].
  - by apply create_action_cases in Hrun as [-> | (action & _ & ->)].
  - by apply get_action_db in Hrun as ->.
  - apply duplicate_action_cases in Hrun as [-> | [local_params Hrun]]; [done|].
    by apply create_action_cases in Hrun as [-> | (action & _ & ->)].
Qed.

End Api.

(** ** The properties on the sample data *)

Lemma create_user_never_administrator_witness :
  let db' :=
    set_users
      (insert "carol" (User.mk "carol" (Sample.hash_password "s3cret") false))
      Sample.db in
  create_user Sample.hash_password Sample.signup Sample.db = (Ok success_response, db') ∧
  ∃ username plaintext,
    Sample.signup !! "username" = Some (VStr username) ∧
    Sample.signup !! "password" = Some (VStr plaintext) ∧
    db_users Sample.db !! username = None ∧
    success_response = success_response ∧
    db' = set_users
            (insert username
               (User.mk username (Sample.hash_password plaintext) false)) Sample.db.
Proof.
  intros db'.
  assert (Hrun : create_user Sample.hash_password Sample.signup Sample.db
                 = (Ok success_response, db')) by (vm_compute; reflexivity).
  split; [exact Hrun|].
  exact (create_user_never_administrator Sample.hash_password Sample.signup Sample.db
           success_response db' Hrun).
Defined.

(** The delegation examples: a request for [get_action] by an issuer
    holding [get_action] and [list_actions], by one holding only
    [list_actions], by one holding the wildcard, and a request that names no
    calls. *)
Lemma create_api_key_delegation_witness :
  let run calls request :=
    create_api_key (Sample.resolved Sample.alice calls false)
      Sample.argon2_hash Sample.b64encode "salt" 1 1 1 11 12 13 14 15
      request Sample.db in
  let digest :=
    api_key_digest Sample.argon2_hash Sample.b64encode "salt" 1 1 1
      (format_key 11 12 13 14 15) in
  let created granted :=
    (Ok (success_api_key (format_key 11 12 13 14 15)),
     set_api_keys (insert digest (APIKey.mk digest "alice" granted)) Sample.db) in
  run ["get_action"; "list_actions"] Sample.key_request = created ["get_action"] ∧
  (∃ message,
     run ["list_actions"] Sample.key_request = (Err (PermissionDenied message), Sample.db)) ∧
  run ["*"] Sample.key_request = created ["get_action"] ∧
  run ["get_action"; "list_actions"] ∅ = created ["get_action"; "list_actions"].
Proof.
  intros run digest created.
  assert (Hfresh : db_api_keys Sample.db !! digest = None) by (vm_compute; reflexivity).
  assert (Hparam : Sample.key_request !! "allowed_api_calls"
                   = Some (VList (VStr <$> ["get_action"]))) by (vm_compute; reflexivity).
  assert (Hne : ["get_action"] ≠ []) by discriminate.
  pose proof (λ calls request,
    create_api_key_delegation (Sample.resolved Sample.alice calls false)
      Sample.argon2_hash Sample.b64encode "salt" 1 1 1 11 12 13 14 15
      request Sample.db Sample.alice calls false eq_refl Hfresh) as Hthm.
  split; [|split; [|split]].
  - destruct (Hthm ["get_action"; "list_actions"] Sample.key_request) as [_ Hreq].
    apply (Hreq ["get_action"] Hparam Hne). left.
    intros m Hm. apply list_elem_of_singleton in Hm as ->. left.
  - destruct (Hthm ["list_actions"] Sample.key_request) as [_ Hreq].
    apply (Hreq ["get_action"] Hparam Hne). intros [Hsub | Hstar].
    + specialize (Hsub "get_action" ltac:(left)).
      apply list_elem_of_singleton in Hsub. discriminate Hsub.
    + apply list_elem_of_singleton in Hstar. discriminate Hstar.
  - destruct (Hthm ["*"] Sample.key_request) as [_ Hreq].
    apply (Hreq ["get_action"] Hparam Hne). right. left.
  - destruct (Hthm ["get_action"; "list_actions"] ∅) as [Hun _].
    apply Hun. reflexivity.
Defined.

Lemma edge_b64_digit_alphabet (n : N) : Edge.b64_digit n ∈ base64_alphabet.
Proof.
  unfold Edge.b64_digit. apply list_elem_of_In, nth_In.
  change (length base64_alphabet) with 65%nat.
  pose proof (N.mod_upper_bound n 64 ltac:(discriminate)). lia.
Qed.

Lemma edge_b64encode_alphabet (bytes : list Byte.byte) :
  Forall (.∈ base64_alphabet) (chars (Edge.b64encode bytes)).
Proof.
  assert (Hpad : "="%char ∈ base64_alphabet).
  { unfold base64_alphabet. simpl. do 64 right. left. }
  assert (H : ∀ n bs, (length bs ≤ n)%nat →
                      Forall (.∈ base64_alphabet) (chars (Edge.b64encode bs))).
  { induction n as [|n IH]; intros bs Hlen.
    - destruct bs; [constructor | simpl in Hlen; lia].
    - destruct bs as [|x [|y [|z rest]]]; simpl.
      + constructor.
      + repeat (constructor; [first [apply edge_b64_digit_alphabet | exact Hpad]|]).
        constructor.
      + repeat (constructor; [first [apply edge_b64_digit_alphabet | exact Hpad]|]).
        constructor.
      + repeat (constructor; [apply edge_b64_digit_alphabet|]).
        apply IH. simpl in Hlen. lia. }
  by apply (H (length bytes)).
Qed.

(** A key made with a checksum digest and standard base64: the stored field
    is ["salt$MajKFeHWLGY="], in which the 180 characters of the secret do
    not occur. *)
Lemma create_api_key_stores_digest_witness :
  let secret := format_key 11 12 13 14 15 in
  let stored := "salt$MajKFeHWLGY=" in
  let db' :=
    set_api_keys (insert stored (APIKey.mk stored "alice" ["get_action"])) Sample.db in
  create_api_key (Sample.resolved Sample.alice ["*"] false)
    Edge.argon2_hash Edge.b64encode "salt" 1 1 1 11 12 13 14 15
    Sample.key_request Sample.db = (Ok (success_api_key secret), db') ∧
  "salt" ++ "$" ++ Edge.b64encode (Edge.argon2_hash secret "salt" 1 1 1) = stored ∧
  ∃ api_key,
    db_api_keys Sample.db !! stored = None ∧
    db' = set_api_keys (insert stored api_key) Sample.db ∧
    APIKey.key api_key = stored ∧
    APIKey.key api_key ≠ secret ∧
    (∀ before after, APIKey.key api_key ≠ before ++ secret ++ after).
Proof.
  intros secret stored db'. subst secret.
  assert (Hrun : create_api_key (Sample.resolved Sample.alice ["*"] false)
                   Edge.argon2_hash Edge.b64encode "salt" 1 1 1 11 12 13 14 15
                   Sample.key_request Sample.db
                 = (Ok (success_api_key (format_key 11 12 13 14 15)), db'))
    by (vm_compute; reflexivity).
  assert (Hstored : "salt" ++ "$"
                    ++ Edge.b64encode
                         (Edge.argon2_hash (format_key 11 12 13 14 15) "salt" 1 1 1)
                    = stored)
    by (vm_compute; reflexivity).
  split; [exact Hrun|]. split; [exact Hstored|].
  destruct (create_api_key_stores_digest _ _ _ _ _ _ _ _ _ _ _ _ _ _ _ _ Hrun)
    as (_ & api_key & Hfresh & Hdb & Hkey & Hne & Hnowhere).
  rewrite Hstored in Hfresh, Hdb, Hkey.
  exists api_key. split; [exact Hfresh|]. split; [exact Hdb|].
  split; [exact Hkey|]. split; [exact Hne|].
  apply (Hnowhere edge_b64encode_alphabet).
  simpl. intros Hin.
  repeat (apply elem_of_cons in Hin as [Hin|Hin]; [discriminate Hin|]).
  by apply elem_of_nil in Hin.
Defined.

(** An administrator resets alice's password, acting in her context,
    without her current password. *)
Lemma update_user_password_admin_override_witness :
  Sample.resolved Sample.alice ["get_action"] true Sample.reset_request Sample.db
    = Ok (Sample.alice, ["get_action"], true) ∧
  User.administrator Sample.alice = false ∧
  Sample.reset_request !! "new_password" = Some (VStr "n3w") ∧
  update_user_password (Sample.resolved Sample.alice ["get_action"] true)
    Sample.hash_password Sample.verify_password Sample.reset_request Sample.db =
    (Ok success_response,
     set_users
       (insert "alice" (User.mk "alice" (Sample.hash_password "n3w") false))
       Sample.db).
Proof.
  assert (Hnew : Sample.reset_request !! "new_password" = Some (VStr "n3w"))
    by (vm_compute; reflexivity).
  split; [reflexivity|]. split; [reflexivity|]. split; [exact Hnew|].
  exact (update_user_password_admin_override
           (Sample.resolved Sample.alice ["get_action"] true)
           Sample.hash_password Sample.verify_password Sample.reset_request Sample.db
           Sample.alice ["get_action"] "n3w" eq_refl eq_refl Hnew).
Defined.

(** C7 as stated fails: the administrator account [root], resolved with
    [administrator = True], does not get its password replaced unless the
    current password is supplied and verifies. *)
Lemma update_user_password_administrator_account_counterexample :
  Sample.resolved Sample.root ["*"] true Sample.change_request Sample.db
    = Ok (Sample.root, ["*"], true) ∧
  update_user_password (Sample.resolved Sample.root ["*"] true)
    Sample.hash_password Sample.verify_password Sample.change_request Sample.db
    = (Err AuthenticationFailed, Sample.db) ∧
  update_user_password (Sample.resolved Sample.root ["*"] true)
    Sample.hash_password Sample.verify_password Sample.reset_request Sample.db
    = (Err (KeyError "current_password"), Sample.db).
Proof. split; [reflexivity|]. split; vm_compute; reflexivity. Qed.

(** Bob may not revoke alice's key; alice and an administrator may. *)
Lemma revoke_api_key_owner_or_administrator_witness :
  let run user administrator :=
    revoke_api_key (Sample.resolved user [] administrator)
      Sample.argon2_hash Sample.b64encode "salt" 1 1 1
      Sample.revoke_request Sample.db in
  let revoked :=
    (Ok success_response, set_api_keys (delete Sample.alice_key_digest) Sample.db) in
  (∃ message, run Sample.bob false = (Err (PermissionDenied message), Sample.db)) ∧
  run Sample.alice false = revoked ∧
  run Sample.bob true = revoked.
Proof.
  intros run revoked.
  pose proof (λ user administrator,
    revoke_api_key_owner_or_administrator (Sample.resolved user [] administrator)
      Sample.argon2_hash Sample.b64encode "salt" 1 1 1
      Sample.revoke_request Sample.db user [] administrator
      Sample.alice_secret Sample.alice_key
      eq_refl ltac:(vm_compute; reflexivity) ltac:(vm_compute; reflexivity)
      ltac:(vm_compute; reflexivity)) as Hthm.
  split; [|split].
  - apply (Hthm Sample.bob false). split; [discriminate | reflexivity].
  - apply (Hthm Sample.alice false). left. reflexivity.
  - apply (Hthm Sample.bob true). right. reflexivity.
Defined.

(** C6: the failing request.  A role with two permissions and one existing
    member is asked for; the lookup [params.get(users)] raises [TypeError]
    and no role is stored. *)
Theorem create_role_sample_raises :
  create_role Sample.role_request Sample.db = (Err TypeError, Sample.db) ∧
  db_roles Sample.db !! "operators" = None.
Proof. split; vm_compute; reflexivity. Qed.

Lemma create_action_unknown_target_witness :
  let run :=
    create_action (Sample.resolved Sample.alice ["create_action"] false)
      Sample.SESSION_STATUSES Sample.parse_action_string 7 1700000000
      Sample.lost_request true Sample.db in
  (∃ e, run = (Err e, Sample.db)) ∧
  run = (Err (CannotBindAction (VStr "nowhere")), Sample.db).
Proof.
  intros run.
  destruct (create_action_unknown_target
              (Sample.resolved Sample.alice ["create_action"] false)
              Sample.SESSION_STATUSES Sample.parse_action_string 7 1700000000
              Sample.lost_request true Sample.db (VStr "nowhere"))
    as [Hfails Hkind].
  - vm_compute; reflexivity.
  - intros n [= <-]. vm_compute; reflexivity.
  - split; [exact Hfails|]. apply Hkind.
    + exists (VStr "exec ls"). vm_compute; reflexivity.
    + exists "alice". reflexivity.
Defined.

(** C4 as stated fails: for the unknown target [nowhere] the failure is
    the [KeyError] of the missing [action_string], or the refusal raised
    while the caller is resolved, when the request has these flaws. *)
Lemma create_action_unknown_target_counterexample :
  db_targets Sample.db !! "nowhere" = None ∧
  create_action Sample.unauthenticated Sample.SESSION_STATUSES
    Sample.parse_action_string 7 1700000000 Edge.only_target true Sample.db
  = (Err (KeyError "action_string"), Sample.db) ∧
  create_action Edge.non_administrator Sample.SESSION_STATUSES
    Sample.parse_action_string 7 1700000000 Edge.lost_as_root true Sample.db
  = (Err (PermissionDenied "user_context requires administrator"), Sample.db) ∧
  KeyError "action_string" ≠ CannotBindAction (VStr "nowhere") ∧
  PermissionDenied "user_context requires administrator"
    ≠ CannotBindAction (VStr "nowhere").
Proof.
  split; [vm_compute; reflexivity|]. split; [vm_compute; reflexivity|].
  split; [vm_compute; reflexivity|]. split; discriminate.
Qed.

(** C2 as stated fails: quick mode on [db01], whose only session is
    inactive, ends in [ValueError], not in [NoActiveSession]. *)
Lemma create_action_quick_no_session_counterexample :
  db_targets Sample.db !! "db01" = Some Sample.db01 ∧
  filter (λ x, Session.status x = active_status Sample.SESSION_STATUSES)
    (Target.sessions Sample.db01) = [] ∧
  create_action (Sample.resolved Sample.alice ["create_action"] false)
    Sample.SESSION_STATUSES Sample.parse_action_string 7 1700000000
    Sample.quick_db01 true Sample.db = (Err ValueError, Sample.db) ∧
  ValueError ≠ NoActiveSession.
Proof.
  split; [vm_compute; reflexivity|]. split; [vm_compute; reflexivity|].
  split; [vm_compute; reflexivity | discriminate].
Qed.

Lemma create_action_quick_without_active_session_witness :
  let run :=
    create_action (Sample.resolved Sample.alice ["create_action"] false)
      Sample.SESSION_STATUSES Sample.parse_action_string 7 1700000000
      Sample.quick_db01 true Sample.db in
  (∃ e, run = (Err e, Sample.db)) ∧ run = (Err ValueError, Sample.db).
Proof.
  intros run.
  destruct (create_action_quick_without_active_session
              (Sample.resolved Sample.alice ["create_action"] false)
              Sample.SESSION_STATUSES Sample.parse_action_string 7 1700000000
              Sample.quick_db01 true Sample.db "db01" Sample.db01)
    as [Hfails Hkind].
  - vm_compute; reflexivity.
  - vm_compute; reflexivity.
  - vm_compute; reflexivity.
  - intros s Hs. apply list_elem_of_singleton in Hs as ->. discriminate.
  - split; [exact Hfails|].
    apply (Hkind "exec ls" {[ "action_type" := VInt 0; "command" := VStr "exec ls" ]}
             "alice"); [vm_compute; reflexivity | reflexivity | reflexivity].
Defined.

(** Quick mode on [web01] (intervals 5, 2, 8 with the last session
    inactive) binds the session with interval 2, although the request asks
    for [session-slow]. *)
Lemma create_action_quick_binds_fastest_witness :
  let action :=
    Action.mk "00000000-0000-4000-8000-000000000007" "web01" "exec ls" (VInt 0)
      (Some "session-fast") 1700000000 "alice"
      {[ "action_type" := VInt 0; "command" := VStr "exec ls" ]} false false in
  let r := success_action_id "00000000-0000-4000-8000-000000000007" in
  let db' := set_actions (insert "00000000-0000-4000-8000-000000000007" action) Sample.db in
  create_action (Sample.resolved Sample.alice ["create_action"] false)
    Sample.SESSION_STATUSES Sample.parse_action_string 7 1700000000
    Sample.quick_web01 true Sample.db = (Ok r, db') ∧
  ∃ s action,
    s ∈ Target.sessions Sample.web01 ∧
    Session.status s = active_status Sample.SESSION_STATUSES ∧
    (∀ s', s' ∈ Target.sessions Sample.web01 →
           Session.status s' = active_status Sample.SESSION_STATUSES →
           Session.interval s ≤ Session.interval s') ∧
    Action.bound_session_id action = Some (Session.session_id s) ∧
    r = success_action_id (Action.action_id action) ∧
    db_actions Sample.db !! Action.action_id action = None ∧
    db' = set_actions (insert (Action.action_id action) action) Sample.db.
Proof.
  intros action r db'.
  assert (Hrun : create_action (Sample.resolved Sample.alice ["create_action"] false)
                   Sample.SESSION_STATUSES Sample.parse_action_string 7 1700000000
                   Sample.quick_web01 true Sample.db = (Ok r, db'))
    by (vm_compute; reflexivity).
  split; [exact Hrun|].
  apply (create_action_quick_binds_fastest
           (Sample.resolved Sample.alice ["create_action"] false)
           Sample.SESSION_STATUSES Sample.parse_action_string 7 1700000000
           Sample.quick_web01 true Sample.db r db' "web01" Sample.web01);
    [vm_compute; reflexivity | vm_compute; reflexivity | vm_compute; reflexivity
    | exact Hrun].
Defined.

Lemma create_action_then_get_action_witness :
  let action :=
    Action.mk "recon-1" "web01" "exec ls" (VInt 0) None 1700000000 "No owner"
      {[ "action_type" := VInt 0; "command" := VStr "exec ls" ]} false false in
  let db' := set_actions (insert "recon-1" action) Sample.db in
  create_action Sample.unauthenticated
    Sample.SESSION_STATUSES Sample.parse_action_string 7 1700000000
    Sample.recon_request true Sample.db = (Ok (success_action_id "recon-1"), db') ∧
  ∃ aid doc,
    success_action_id "recon-1" = success_action_id aid ∧
    (({[ "action_id" := VStr "recon-1" ]} : Params) !! "action_id" = Some (VStr aid) →
     get_action {[ "action_id" := VStr "recon-1" ]} db' = (Ok (success_action doc), db')) ∧
    Action.doc_action_id doc = aid ∧
    Action.doc_target_name doc = "web01" ∧
    Action.doc_action_string doc = "exec ls" ∧
    Action.doc_status doc = Action.Queued.
Proof.
  intros action db'.
  assert (Hrun : create_action Sample.unauthenticated
                   Sample.SESSION_STATUSES Sample.parse_action_string 7 1700000000
                   Sample.recon_request true Sample.db
                 = (Ok (success_action_id "recon-1"), db'))
    by (vm_compute; reflexivity).
  split; [exact Hrun|].
  apply (create_action_then_get_action Sample.unauthenticated
           Sample.SESSION_STATUSES Sample.parse_action_string 7 1700000000
           Sample.recon_request {[ "action_id" := VStr "recon-1" ]} Sample.db
           (success_action_id "recon-1") db' "web01" "exec ls");
    [vm_compute; reflexivity | vm_compute; reflexivity | exact Hrun].
Defined.

(** ** The further properties on the sample data *)

Lemma create_api_key_never_exceeds_issuer_witness :
  ∃ api_key,
    Scenario.db_with_new_key
      = set_api_keys
          (insert (api_key_digest Sample.argon2_hash Sample.b64encode "salt" 1 1 1
                     (format_key 11 12 13 14 15)) api_key) Sample.db ∧
    APIKey.owner api_key = User.username Sample.alice ∧
    ((∀ m, m ∈ APIKey.allowed_api_calls api_key → m ∈ ["get_action"; "list_actions"])
     ∨ "*" ∈ ["get_action"; "list_actions"]).
Proof.
  apply (create_api_key_never_exceeds_issuer
           (Sample.resolved Sample.alice ["get_action"; "list_actions"] false)
           Sample.argon2_hash Sample.b64encode "salt" 1 1 1 11 12 13 14 15
           Sample.key_request Sample.db (success_api_key Scenario.new_secret)
           Scenario.db_with_new_key Sample.alice ["get_action"; "list_actions"] false);
    [reflexivity | vm_compute; reflexivity].
Defined.

Lemma create_api_key_only_adds_witness :
  db_users Scenario.db_with_new_key = db_users Sample.db ∧
  db_roles Scenario.db_with_new_key = db_roles Sample.db ∧
  db_actions Scenario.db_with_new_key = db_actions Sample.db ∧
  db_targets Scenario.db_with_new_key = db_targets Sample.db ∧
  (∀ k a, db_api_keys Sample.db !! k = Some a →
          db_api_keys Scenario.db_with_new_key !! k = Some a) ∧
  (∀ e, Ok (success_api_key Scenario.new_secret) = Err e →
        Scenario.db_with_new_key = Sample.db).
Proof.
  apply (create_api_key_only_adds
           (Sample.resolved Sample.alice ["get_action"; "list_actions"] false)
           Sample.argon2_hash Sample.b64encode "salt" 1 1 1 11 12 13 14 15
           Sample.key_request Sample.db).
  vm_compute; reflexivity.
Defined.

Lemma create_api_key_secret_format_witness :
  ∃ secret,
    success_api_key Scenario.new_secret = success_api_key secret ∧
    String.length secret = 180%nat ∧
    Forall (.∈ uuid_alphabet) (chars secret).
Proof.
  apply (create_api_key_secret_format
           (Sample.resolved Sample.alice ["get_action"; "list_actions"] false)
           Sample.argon2_hash Sample.b64encode "salt" 1 1 1 11 12 13 14 15
           Sample.key_request Sample.db (success_api_key Scenario.new_secret)
           Scenario.db_with_new_key).
  vm_compute; reflexivity.
Defined.

(** Alice creates a key and revokes it again. *)
Lemma create_api_key_then_revoke_witness :
  ∃ secret,
    success_api_key Scenario.new_secret = success_api_key secret ∧
    (Scenario.revoke_new_key !! "api_key" = Some (VStr secret) →
     revoke_api_key (Sample.resolved Sample.alice ["get_action"; "list_actions"] false)
       Sample.argon2_hash Sample.b64encode "salt" 1 1 1
       Scenario.revoke_new_key Scenario.db_with_new_key
     = (Ok success_response, Sample.db)).
Proof.
  apply (create_api_key_then_revoke
           (Sample.resolved Sample.alice ["get_action"; "list_actions"] false)
           Sample.argon2_hash Sample.b64encode "salt" 1 1 1 11 12 13 14 15
           Sample.key_request Scenario.revoke_new_key Sample.db
           (success_api_key Scenario.new_secret) Scenario.db_with_new_key
           Sample.alice ["get_action"; "list_actions"] false
           Sample.alice ["get_action"; "list_actions"] false);
    [reflexivity | vm_compute; reflexivity | reflexivity | left; reflexivity].
Defined.

Lemma revoke_api_key_only_removes_witness :
  let db' := set_api_keys (delete Sample.alice_key_digest) Sample.db in
  db_users db' = db_users Sample.db ∧ db_roles db' = db_roles Sample.db ∧
  db_actions db' = db_actions Sample.db ∧ db_targets db' = db_targets Sample.db ∧
  (∀ k a, db_api_keys db' !! k = Some a → db_api_keys Sample.db !! k = Some a) ∧
  (∀ e, Ok success_response = Err e → db' = Sample.db).
Proof.
  apply (revoke_api_key_only_removes (Sample.resolved Sample.alice [] false)
           Sample.argon2_hash Sample.b64encode "salt" 1 1 1
           Sample.revoke_request Sample.db).
  vm_compute; reflexivity.
Defined.

(** A second sign-up under alice's name is refused. *)
Lemma create_user_only_adds_witness :
  let taken : Params := {[ "username" := VStr "alice"; "password" := VStr "other" ]} in
  db_api_keys Sample.db = db_api_keys Sample.db ∧
  db_roles Sample.db = db_roles Sample.db ∧
  db_actions Sample.db = db_actions Sample.db ∧
  db_targets Sample.db = db_targets Sample.db ∧
  (∀ k u, db_users Sample.db !! k = Some u → db_users Sample.db !! k = Some u) ∧
  (∀ username, taken !! "username" = Some (VStr username) →
               is_Some (db_users Sample.db !! username) →
               ∃ e, (Err DuplicateKey : result reply) = Err e) ∧
  (∀ e, (Err DuplicateKey : result reply) = Err e → Sample.db = Sample.db).
Proof.
  intros taken.
  apply (create_user_only_adds Sample.hash_password taken Sample.db).
  vm_compute; reflexivity.
Defined.

Lemma sample_resolves_stored_user (user : User.t) calls administrator params :
  db_users Sample.db !! User.username user = Some user →
  resolves_stored_user (Sample.resolved user calls administrator) params Sample.db.
Proof. intros Hstored user' calls' administrator' [= <- _ _]. exact Hstored. Qed.

(** Alice changes her own password and has to present the current one. *)
Lemma update_user_password_checks_current_witness :
  ∃ stored current new_password,
    db_users Sample.db !! User.username Sample.alice = Some stored ∧
    Scenario.own_change !! "current_password" = Some (VStr current) ∧
    Scenario.own_change !! "new_password" = Some (VStr new_password) ∧
    Sample.verify_password current (User.password stored) = true ∧
    set_users (insert "alice" (User.mk "alice" (Sample.hash_password "n3w") false))
      Sample.db
    = set_users
        (insert (User.username Sample.alice)
           (User.mk (User.username stored) (Sample.hash_password new_password)
              (User.administrator stored))) Sample.db.
Proof.
  apply (update_user_password_checks_current
           (Sample.resolved Sample.alice ["get_action"] false)
           Sample.hash_password Sample.verify_password Scenario.own_change Sample.db
           Sample.alice ["get_action"] false success_response);
    [apply sample_resolves_stored_user; vm_compute; reflexivity
    | reflexivity | left; reflexivity | vm_compute; reflexivity].
Defined.

Lemma update_user_password_only_password_witness :
  let db' :=
    set_users (insert "alice" (User.mk "alice" (Sample.hash_password "n3w") false))
      Sample.db in
  db_api_keys db' = db_api_keys Sample.db ∧ db_roles db' = db_roles Sample.db ∧
  db_actions db' = db_actions Sample.db ∧ db_targets db' = db_targets Sample.db ∧
  (∀ k, k ≠ User.username Sample.alice → db_users db' !! k = db_users Sample.db !! k) ∧
  (∃ stored,
     db_users Sample.db !! User.username Sample.alice = Some stored ∧
     (db_users db' !! User.username Sample.alice = Some stored ∨
      ∃ h, db_users db' !! User.username Sample.alice
           = Some (User.mk (User.username stored) h (User.administrator stored)))) ∧
  (∀ e, Ok success_response = Err e → db' = Sample.db).
Proof.
  apply (update_user_password_only_password
           (Sample.resolved Sample.alice ["get_action"] false)
           Sample.hash_password Sample.verify_password Scenario.own_change Sample.db
           Sample.alice ["get_action"] false);
    [apply sample_resolves_stored_user; vm_compute; reflexivity
    | reflexivity | vm_compute; reflexivity].
Defined.

Lemma create_action_owner_witness :
  let run get_context :=
    create_action get_context Sample.SESSION_STATUSES Sample.parse_action_string
      7 1700000000 Sample.recon_request false Sample.db in
  (∃ action, run (Sample.resolved Sample.alice ["create_action"] false)
             = (Ok (unsaved_action action), Sample.db) ∧
             Action.owner action = "alice") ∧
  (∃ action, run Sample.unauthenticated = (Ok (unsaved_action action), Sample.db) ∧
             Action.owner action = "No owner").
Proof.
  intros run. split.
  - destruct (create_action_owner (Sample.resolved Sample.alice ["create_action"] false)
                Sample.SESSION_STATUSES Sample.parse_action_string
                7 1700000000 Sample.recon_request false Sample.db
                (unsaved_action
                   (Action.mk "recon-1" "web01" "exec ls" (VInt 0) None 1700000000 "alice"
                      {[ "action_type" := VInt 0; "command" := VStr "exec ls" ]}
                      false false)) Sample.db)
      as (action & [Hr _] & Howner); [vm_compute; reflexivity|].
    exists action. injection Hr as <-. split; [vm_compute; reflexivity | exact Howner].
  - destruct (create_action_owner Sample.unauthenticated
                Sample.SESSION_STATUSES Sample.parse_action_string
                7 1700000000 Sample.recon_request false Sample.db
                (unsaved_action
                   (Action.mk "recon-1" "web01" "exec ls" (VInt 0) None 1700000000
                      "No owner"
                      {[ "action_type" := VInt 0; "command" := VStr "exec ls" ]}
                      false false)) Sample.db)
      as (action & [Hr _] & Howner & _); [vm_compute; reflexivity|].
    exists action. injection Hr as <-. split; [vm_compute; reflexivity | exact Howner].
Defined.


(** A second action under the id [recon-1] is refused and the first one
    stays. *)
Lemma create_action_only_adds_witness :
  db_users Scenario.db = db_users Scenario.db ∧
  db_api_keys Scenario.db = db_api_keys Scenario.db ∧
  db_roles Scenario.db = db_roles Scenario.db ∧
  db_targets Scenario.db = db_targets Scenario.db ∧
  (∀ k a, db_actions Scenario.db !! k = Some a → db_actions Scenario.db !! k = Some a) ∧
  (∀ e, (Err DuplicateKey : result reply) = Err e → Scenario.db = Scenario.db).
Proof.
  apply (create_action_only_adds Sample.unauthenticated Sample.SESSION_STATUSES
           Sample.parse_action_string 7 1700000000 Sample.recon_request true
           Scenario.db).
  vm_compute; reflexivity.
Defined.

(** Of the two sessions of [lab] that poll every 3 seconds the first one is
    bound. *)
Lemma create_action_quick_first_fastest_witness :
  let r := success_action_id "00000000-0000-4000-8000-000000000007" in
  let action :=
    Action.mk "00000000-0000-4000-8000-000000000007" "lab" "exec id" (VInt 0)
      (Some "twin-1") 1700000000 "No owner"
      {[ "action_type" := VInt 0; "command" := VStr "exec id" ]} false false in
  let db' :=
    set_actions (insert "00000000-0000-4000-8000-000000000007" action) Scenario.db in
  create_action Sample.unauthenticated Sample.SESSION_STATUSES
    Sample.parse_action_string 7 1700000000 Scenario.quick_lab true Scenario.db
  = (Ok r, db') ∧
  ∃ s before after action,
    filter (λ x, Session.status x = active_status Sample.SESSION_STATUSES)
      (Target.sessions Scenario.lab) = (before ++ s :: after)%list ∧
    (∀ x, x ∈ before → Session.interval s < Session.interval x) ∧
    (∀ x, x ∈ after → Session.interval s ≤ Session.interval x) ∧
    Action.bound_session_id action = Some (Session.session_id s) ∧
    r = success_action_id (Action.action_id action) ∧
    db' = set_actions (insert (Action.action_id action) action) Scenario.db.
Proof.
  intros r action db'.
  assert (Hrun : create_action Sample.unauthenticated Sample.SESSION_STATUSES
                   Sample.parse_action_string 7 1700000000 Scenario.quick_lab true
                   Scenario.db = (Ok r, db')) by (vm_compute; reflexivity).
  split; [exact Hrun|].
  apply (create_action_quick_first_fastest Sample.unauthenticated
           Sample.SESSION_STATUSES Sample.parse_action_string 7 1700000000
           Scenario.quick_lab true Scenario.db r db' "lab" Scenario.lab);
    [vm_compute; reflexivity | vm_compute; reflexivity | vm_compute; reflexivity
    | exact Hrun].
Defined.

(** An action is bound to [no-such-session], which no target has. *)
Lemma create_action_binding_unchecked_witness :
  ∃ action,
    create_action Sample.unauthenticated Sample.SESSION_STATUSES
      Sample.parse_action_string 7 1700000000 Scenario.bound_elsewhere true Sample.db
    = (Ok (success_action_id "00000000-0000-4000-8000-000000000007"),
       set_actions (insert "00000000-0000-4000-8000-000000000007" action) Sample.db) ∧
    Action.bound_session_id action = Some "no-such-session".
Proof.
  apply (create_action_binding_unchecked Sample.unauthenticated
           Sample.SESSION_STATUSES Sample.parse_action_string 7 1700000000
           Scenario.bound_elsewhere Sample.db "web01" Sample.web01 "exec id"
           {[ "action_type" := VInt 0; "command" := VStr "exec id" ]} (VInt 0)
           "00000000-0000-4000-8000-000000000007" "No owner" "no-such-session");
    vm_compute; reflexivity.
Defined.

(** The cancelled action [recon-1] is duplicated: the copy is queued again
    and still bound to [session-slow]. *)
Lemma duplicate_action_copies_witness :
  let copy :=
    Action.mk "00000000-0000-4000-8000-000000000007" "web01" "exec ls" (VInt 0)
      (Some "session-slow") 1700000000 "alice"
      {[ "action_type" := VInt 0; "command" := VStr "exec ls" ]} false false in
  let r := success_action_id "00000000-0000-4000-8000-000000000007" in
  let db' :=
    set_actions (insert "00000000-0000-4000-8000-000000000007" copy) Scenario.db in
  duplicate_action (Sample.resolved Sample.alice ["duplicate_action"] false)
    Sample.SESSION_STATUSES Sample.parse_action_string 7 1700000000
    Scenario.duplicate_request Scenario.db = (Ok r, db') ∧
  Action.status Scenario.cancelled_recon = Action.Cancelled ∧
  ∃ copy,
    r = success_action_id (uuid_str (uuid4 7)) ∧
    db_actions Scenario.db !! uuid_str (uuid4 7) = None ∧
    db' = set_actions (insert (uuid_str (uuid4 7)) copy) Scenario.db ∧
    db_actions db' !! "recon-1" = Some Scenario.cancelled_recon ∧
    Action.action_id copy = uuid_str (uuid4 7) ∧
    Action.target_name copy = Action.target_name Scenario.cancelled_recon ∧
    Action.action_string copy = Action.action_string Scenario.cancelled_recon ∧
    Action.bound_session_id copy
      = (if truthy (opt_str_value (Action.bound_session_id Scenario.cancelled_recon))
         then Action.bound_session_id Scenario.cancelled_recon else None) ∧
    Action.queue_time copy = 1700000000 ∧
    Action.status copy = Action.Queued.
Proof.
  intros copy r db'.
  assert (Hrun : duplicate_action (Sample.resolved Sample.alice ["duplicate_action"] false)
                   Sample.SESSION_STATUSES Sample.parse_action_string 7 1700000000
                   Scenario.duplicate_request Scenario.db = (Ok r, db'))
    by (vm_compute; reflexivity).
  split; [exact Hrun|]. split; [reflexivity|].
  apply (duplicate_action_copies (Sample.resolved Sample.alice ["duplicate_action"] false)
           Sample.SESSION_STATUSES Sample.parse_action_string 7 1700000000
           Scenario.duplicate_request Scenario.db r db' "recon-1"
           Scenario.cancelled_recon);
    [vm_compute; reflexivity | vm_compute; reflexivity | exact Hrun].
Defined.

(** Asking for quick mode, another target and bob's context changes nothing
    about the duplicate. *)
Lemma duplicate_action_reads_two_keys_witness :
  duplicate_action (Sample.resolved Sample.alice ["duplicate_action"] false)
    Sample.SESSION_STATUSES Sample.parse_action_string 7 1700000000
    Scenario.duplicate_request Scenario.db
  = duplicate_action (Sample.resolved Sample.alice ["duplicate_action"] false)
      Sample.SESSION_STATUSES Sample.parse_action_string 7 1700000000
      Scenario.duplicate_request_with_options Scenario.db.
Proof.
  apply (duplicate_action_reads_two_keys
           (Sample.resolved Sample.alice ["duplicate_action"] false)
           Sample.SESSION_STATUSES Sample.parse_action_string 7 1700000000
           Scenario.duplicate_request Scenario.duplicate_request_with_options
           Scenario.db);
    vm_compute; reflexivity.
Defined.

Lemma update_role_permissions_keeps_members_witness :
  let db' :=
    set_roles
      (insert "operators"
         (Role.mk "operators" ["get_action"; "cancel_action"] ["alice"; "bob"]))
      Scenario.db in
  update_role_permissions Scenario.permissions_request Scenario.db
    = (Ok success_response, db') ∧
  ∃ role_name role calls,
    Scenario.permissions_request !! "role_name" = Some (VStr role_name) ∧
    db_roles Scenario.db !! role_name = Some role ∧
    Scenario.permissions_request !! "allowed_api_calls" = Some (VList (VStr <$> calls)) ∧
    success_response = success_response ∧
    db' = set_roles
            (insert (Role.name role) (Role.mk (Role.name role) calls (Role.users role)))
            Scenario.db.
Proof.
  intros db'.
  assert (Hrun : update_role_permissions Scenario.permissions_request Scenario.db
                 = (Ok success_response, db')) by (vm_compute; reflexivity).
  split; [exact Hrun|].
  exact (update_role_permissions_keeps_members Scenario.permissions_request
           Scenario.db success_response db' Hrun).
Defined.

Lemma scenario_well_filed : well_filed Scenario.db.
Proof.
  repeat split; intros k x Hk; simpl in Hk;
    repeat (apply lookup_insert_Some in Hk as [[<- <-] | [_ Hk]]; [reflexivity|]);
    try (apply lookup_singleton_Some in Hk as [<- <-]; reflexivity);
    by apply lookup_empty_Some in Hk.
Defined.


(** The administrator resets alice's password; [root], an administrator
    afterwards, was one before. *)
Lemma api_call_no_new_administrator_witness :
  ∃ u0, db_users Sample.db !! "root" = Some u0 ∧ User.administrator u0 = true.
Proof.
  assert (Hcall : api_call (Sample.resolved Sample.alice ["get_action"] true)
                    Sample.hash_password Sample.verify_password
                    Sample.argon2_hash Sample.b64encode "salt" 1 1 1
                    Sample.SESSION_STATUSES Sample.parse_action_string Sample.db
                    (set_users
                       (insert "alice"
                          (User.mk "alice" (Sample.hash_password "n3w") false))
                       Sample.db)).
  { apply (call_update_user_password _ _ _ _ _ _ _ _ _ _ _
             Sample.reset_request (Ok success_response)).
    - intros user calls administrator [= <- _ _]. vm_compute; reflexivity.
    - vm_compute; reflexivity. }
  apply (api_call_no_new_administrator _ _ _ _ _ _ _ _ _ _ _ _ _ Hcall
           "root" Sample.root); vm_compute; reflexivity.
Defined.

Lemma update_role_permissions_idempotent_witness :
  let db' :=
    set_roles
      (insert "operators"
         (Role.mk "operators" ["get_action"; "cancel_action"] ["alice"; "bob"]))
      Scenario.db in
  update_role_permissions Scenario.permissions_request db' = (Ok success_response, db').
Proof.
  intros db'.
  apply (update_role_permissions_idempotent Scenario.permissions_request Scenario.db
           success_response db' scenario_well_filed).
  vm_compute; reflexivity.
Defined.

(** Alice revokes her key; bob, trying the same secret afterwards as an
    administrator, finds no key. *)
Lemma revoke_api_key_twice_witness :
  let db' := set_api_keys (delete Sample.alice_key_digest) Sample.db in
  revoke_api_key (Sample.resolved Sample.bob [] true)
    Sample.argon2_hash Sample.b64encode "salt" 1 1 1 Sample.revoke_request db'
  = (Err NotFound, db').
Proof.
  intros db'.
  pose proof (revoke_api_key_twice (Sample.resolved Sample.bob [] true)
                Sample.argon2_hash Sample.b64encode "salt" 1 1 1
                Sample.revoke_request Sample.revoke_request Sample.db
                success_response db' Sample.alice_secret Sample.alice_key
                Sample.bob [] true) as Hthm.
  apply Hthm; try reflexivity; vm_compute; reflexivity.
Defined.

Lemma any_api_call_targets_read_only_witness :
  db_targets
    (create_action Sample.unauthenticated Sample.SESSION_STATUSES
       Sample.parse_action_string 7 1700000000 Scenario.quick_lab true Scenario.db).2
  = db_targets Scenario.db.
Proof.
  apply (any_api_call_targets_read_only Sample.unauthenticated
           Sample.hash_password Sample.verify_password
           Sample.argon2_hash Sample.b64encode "salt" 1 1 1
           Sample.SESSION_STATUSES Sample.parse_action_string).
  eapply any_create_action. apply surjective_pairing.
Defined.
